(** * pixorter: snap-date reconciliation and canonical output paths

    A shallow embedding of [pixorter/picture.py], [pixorter/date_extract.py]
    and [pixorter/picture_manip.py], and the properties of the evidence
    reconciler ([get_snap_date]) and of the path assigner
    ([get_path_couples]) that hold, or fail, on that code.

    Conventions of the embedding:
    - a Python [int] is a [Z]; [str(n)] is stdpp's [pretty];
    - a Python [str] is a [string] of bytes; case mapping is the ASCII one
      and bytes above 127 are left as they are;
    - a [pathlib.Path] is its POSIX string form, as [str(path)] gives it;
    - a naive [datetime] is a record of its seven integer fields;
    - a function that can raise returns a [result]; a function that logs
      also returns the records it emitted, in order. *)

From Stdlib Require Import ZArith Ascii.
From stdpp Require Import gmap strings list pretty.

Local Open Scope Z_scope.

(** ** Python strings *)

Module pystr.

Fixpoint all (P : ascii → bool) (s : string) : bool :=
  match s with
  | EmptyString => true
  | String c s' => P c && all P s'
  end.

(** The character tests the statements below use: "is not [sep]", "occurs
    in the decimal rendering of an integer", "is an ASCII capital". *)
Definition isnt (sep : ascii) (c : ascii) : bool := bool_decide (c ≠ sep).

Definition numeric (c : ascii) : bool :=
  bool_decide (c ∈ ["0"; "1"; "2"; "3"; "4"; "5"; "6"; "7"; "8"; "9"; "-"]%char).

Definition is_upper (c : ascii) : bool :=
  let n := N_of_ascii c in ((65 <=? n) && (n <=? 90))%N.

Definition len (s : string) : Z := Z.of_nat (String.length s).

(** [s[n:]] for a natural [n]. *)
Fixpoint drop (n : nat) (s : string) : string :=
  match n, s with
  | O, _ => s
  | S n', EmptyString => EmptyString
  | S n', String _ s' => drop n' s'
  end.

Definition startswith (pre s : string) : bool := String.prefix pre s.

Definition lower_char (c : ascii) : ascii :=
  if is_upper c then ascii_of_N (N_of_ascii c + 32) else c.

(** [s.lower()], on ASCII: the letters [A] to [Z] go to [a] to [z], every
    other byte stays. A cased letter outside ASCII, which [str.lower] would
    map, stays as it is. *)
Fixpoint lower (s : string) : string :=
  match s with
  | EmptyString => EmptyString
  | String c s' => String (lower_char c) (lower s')
  end.

(** [s.split(sep)] for a one-character separator: never the empty list. *)
Fixpoint split (sep : ascii) (s : string) : list string :=
  match s with
  | EmptyString => [EmptyString]
  | String c s' =>
      if decide (c = sep) then EmptyString :: split sep s'
      else match split sep s' with
           | [] => [String c EmptyString]
           | x :: xs => String c x :: xs
           end
  end.

(** [sep.join(l)] *)
Fixpoint join (sep : string) (l : list string) : string :=
  match l with
  | [] => EmptyString
  | [x] => x
  | x :: xs => x +:+ sep +:+ join sep xs
  end.

(** [s.rfind(c)] for a one-character [c]: the index of the last
    occurrence, [-1] when there is none. *)
Fixpoint rfind_from (c : ascii) (s : string) (i : Z) (found : Z) : Z :=
  match s with
  | EmptyString => found
  | String a s' => rfind_from c s' (i + 1) (if decide (a = c) then i else found)
  end.

Definition rfind (c : ascii) (s : string) : Z := rfind_from c s 0 (-1).

End pystr.

(** ** pathlib (POSIX flavour) *)

Module pathlib.

(** A path is its string form, already normalised. *)
Definition Path : Type := string.

Definition is_part (x : string) : bool :=
  negb (bool_decide (x = "")) && negb (bool_decide (x = ".")).

(** The root of a POSIX path string: exactly two leading slashes are
    kept, one or three and more collapse to one. *)
Definition root_of (s : string) : string :=
  if pystr.startswith "/" s then
    if pystr.startswith "//" s && negb (pystr.startswith "///" s)
    then "//" else "/"
  else "".

(** [Path(s)]: empty and [.] components are dropped. *)
Definition of_str (s : string) : Path :=
  let r := root_of s in
  let tail := filter (λ x, is_part x = true) (pystr.split "/" s) in
  let str := r +:+ pystr.join "/" tail in
  if bool_decide (str = "") then "." else str.

(** [p / s] *)
Definition joinpath (p : Path) (s : string) : Path :=
  if pystr.startswith "/" s then of_str s
  else if bool_decide (p = ".") then of_str s
  else if bool_decide (p = "/") || bool_decide (p = "//") then of_str (p +:+ s)
  else of_str (p +:+ "/" +:+ s).

(** [p.name]: the last component, empty for the root and for [.] *)
Definition name (p : Path) : string :=
  let n := List.last (pystr.split "/" p) "" in
  if bool_decide (n = ".") then "" else n.

(** [p.suffix]: the last dot of the name and what follows it, unless that
    dot is the first or the last character of the name. *)
Definition suffix (p : Path) : string :=
  let n := name p in
  let i := pystr.rfind "." n in
  if bool_decide (0 < i) && bool_decide (i < pystr.len n - 1)
  then pystr.drop (Z.to_nat i) n else "".

(** A string that can stand as one component of a relative path. *)
Definition component (x : string) : Prop :=
  pystr.all (pystr.isnt "/") x = true ∧ x ≠ "" ∧ x ≠ ".".

End pathlib.

Import pathlib.

(** ** datetime *)

Record datetime : Type := mk_datetime {
  year : Z; month : Z; day : Z;
  hour : Z; minute : Z; second : Z; microsecond : Z
}.

Global Instance datetime_eq_dec : EqDecision datetime.
Proof. solve_decision. Defined.

(** [d.date()] *)
Definition date (d : datetime) : Z * Z * Z := (year d, month d, day d).

(** ** globals.py

    The module is not part of the sources at hand: its constants are taken
    as parameters. *)

Class Globals : Type := {
  IMAGE_EXTENSIONS : list string;
  VIDEO_EXTENSIONS : list string;
  (* the patterns, in the order they are tried *)
  FILENAME_REGEXES : list string
}.

(** ** picture.py *)

Module picture.
Section picture.
Context `{G : !Globals}.

Record Picture : Type := mk_Picture {
  source_path : Path;
  snap_date : datetime
}.

Definition extension (self : Picture) : string :=
  let ext := pystr.drop 1 (pystr.lower (suffix (source_path self))) in
  if bool_decide (ext = "jpeg") then "jpg"
  else if bool_decide (ext = "tiff") then "tif"
  else ext.

Definition is_video (self : Picture) : bool :=
  bool_decide (extension self ∈ VIDEO_EXTENSIONS).

(** The locals [ymdhms_str], [filename] and [folder] of [get_output_path]. *)
Definition ymdhms_str (d : datetime) : string :=
  pretty (year d) +:+ "-" +:+ pretty (month d) +:+ "-" +:+ pretty (day d)
  +:+ "-" +:+ pretty (hour d) +:+ "h" +:+ pretty (minute d)
  +:+ (if bool_decide (second d ≠ 0)
       then "m" +:+ pretty (second d) +:+ "s" else "").

Definition filename (self : Picture) (duplicate_count : Z) : string :=
  let tag := if is_video self then "VID" else "IMG" in
  let ext := extension self in
  ymdhms_str (snap_date self) +:+ "_" +:+ tag +:+ pretty duplicate_count
  +:+ "." +:+ ext.

Definition folder (d : datetime) : Path :=
  of_str (pretty (year d) +:+ "/" +:+ pretty (month d)).

Definition get_output_path (self : Picture) (duplicate_count : Z) : Path :=
  joinpath (folder (snap_date self)) (filename self duplicate_count).

End picture.
End picture.

(** ** Exceptions, results and logging *)

(** The exception classes that occur. [NoMatchException] is the repository's
    own and carries its message; the messages of the others are left out. *)
Inductive exn : Type :=
| NoMatchException (msg : string)
| ValueError
| TypeError
| IndexError
| KeyError
| AttributeError
| NameError
| OverflowError
| JSONDecodeError
| FFmpegError
| OtherError (name : string).

Global Instance exn_eq_dec : EqDecision exn.
Proof. solve_decision. Defined.

(** [except NoMatchException] *)
Definition is_NoMatchException (e : exn) : bool :=
  match e with NoMatchException _ => true | _ => false end.

Inductive result (A : Type) : Type :=
| Return (a : A)
| Raise (e : exn).
Global Arguments Return {A} a.
Global Arguments Raise {A} e.

Global Instance result_ret : MRet result := λ A a, Return a.
Global Instance result_bind : MBind result := λ A B f r,
  match r with
  | Return a => f a
  | Raise e => Raise e
  end.

Inductive level : Type := DEBUG | INFO | WARNING | ERROR.

Global Instance level_eq_dec : EqDecision level.
Proof. solve_decision. Defined.

(** The objects handed to a logging call after its format string. *)
Inductive log_arg : Type :=
| ArgStr (s : string)
| ArgInt (n : Z)
| ArgPath (p : Path)
| ArgDatetime (d : datetime)
| ArgPicture (p : picture.Picture)
| ArgExn (e : exn).

Record LogRecord : Type := mk_LogRecord {
  levelname : level;
  msg : string;
  args : list log_arg
}.

(** A computation that logs and may raise: the records it emitted, then
    its outcome. *)
Definition M (A : Type) : Type := list LogRecord * result A.

Global Instance M_ret : MRet M := λ A a, ([], Return a).
Global Instance M_bind : MBind M := λ A B f m,
  match m.2 with
  | Return a => (m.1 ++ (f a).1, (f a).2)
  | Raise e => (m.1, Raise e)
  end.

Definition raise {A} (e : exn) : M A := ([], Raise e).
Definition lift {A} (r : result A) : M A := ([], r).
Definition log (lvl : level) (fmt : string) (a : list log_arg) : M unit :=
  ([mk_LogRecord lvl fmt a], Return tt).

(** [try: body  except <catches> as e: handler e] *)
Definition try_except {A} (body : M A) (catches : exn → bool)
    (handler : exn → M A) : M A :=
  match body.2 with
  | Return a => body
  | Raise e =>
      if catches e then (body.1 ++ (handler e).1, (handler e).2) else body
  end.

(** [try: x = body  except <catches> as e: handler e  else: orelse x] *)
Definition try_except_else {A B} (body : M A) (catches : exn → bool)
    (handler : exn → M B) (orelse : A → M B) : M B :=
  match body.2 with
  | Return a => (body.1 ++ (orelse a).1, (orelse a).2)
  | Raise e =>
      if catches e then (body.1 ++ (handler e).1, (handler e).2)
      else (body.1, Raise e)
  end.

Definition outcome {A} (m : M A) : result A := m.2.
Definition emitted {A} (m : M A) : list LogRecord := m.1.
Definition warnings {A} (m : M A) : list LogRecord :=
  filter (λ r, levelname r = WARNING) (emitted m).

(** ** date_extract.py *)

Module date_extract.

(** A successful [re] match, as far as the code looks at it: its named
    groups, each with the text it matched or [None] when it took no part
    in the match. *)
Definition Match : Type := gmap string (option string).

(** [PIL.Image.Exif]: tag number to value. *)
Definition Exif : Type := gmap Z string.

Record Image : Type := mk_Image { getexif : option Exif }.

(** A decoded JSON document. *)
#[warnings="-register-all"] Inductive json : Type :=
| JNull
| JBool (b : bool)
| JNumber (literal : string)
| JString (s : string)
| JArray (items : list json)
| JObject (members : list (string * json)).

(** What the code calls outside the repository. *)
Class Libs : Type := {
  (* re.search(pattern, string) *)
  re_search : string → string → option Match;
  (* PIL.ExifTags.TAGS.items() *)
  ExifTags_TAGS : list (Z * string);
  (* PIL.Image.open *)
  open_image : Path → result Image;
  (* datetime.strptime(string, format); None stands for its ValueError *)
  strptime : string → string → option datetime;
  (* whether the import of FFmpeg and FFmpegError from ffmpeg succeeded *)
  ffmpeg_imported : bool;
  (* the probe: the execute() of the FFmpeg object built on the path *)
  ffprobe_execute : Path → result string;
  (* json.loads; the members of a decoded object have distinct keys *)
  json_loads : string → result json
}.

(** *** Built-ins *)

(** [x or y] on optional strings: [None] and the empty string are false. *)
Definition py_or (x y : option string) : option string :=
  match x with
  | Some (String _ _) => x
  | _ => y
  end.

(** [d[k] = v] on a dict kept in insertion order. *)
Fixpoint dict_set {V} (k : string) (v : V) (d : list (string * V))
    : list (string * V) :=
  match d with
  | [] => [(k, v)]
  | (k', v') :: d' =>
      if decide (k' = k) then (k, v) :: d' else (k', v') :: dict_set k v d'
  end.

(** [int(s)] on an ASCII string: surrounding white space (tab, line feed,
    vertical tab, form feed, carriage return, space), an optional sign, then
    digits, where single underscores may separate digits; more than 4300
    digits are refused. Decimal digits outside ASCII, which [int] also
    reads, are not digits here. *)
Definition is_space (c : ascii) : bool :=
  bool_decide (c ∈ ["009"; "010"; "011"; "012"; "013"; " "]%char).

Fixpoint lstrip (s : string) : string :=
  match s with
  | String c s' => if is_space c then lstrip s' else s
  | EmptyString => EmptyString
  end.

Definition strip (s : string) : string :=
  String.rev (lstrip (String.rev (lstrip s))).

Fixpoint int_digits (s : string) (acc : Z) (after_digit : bool) : option Z :=
  match s with
  | EmptyString => if after_digit then Some acc else None
  | String c s' =>
      if decide (c = "_"%char)
      then if after_digit then int_digits s' acc false else None
      else match Ascii.is_nat c with
           | Some d => int_digits s' (10 * acc + Z.of_nat d) true
           | None => None
           end
  end.

Fixpoint count_digits (s : string) : Z :=
  match s with
  | EmptyString => 0
  | String c s' =>
      (if Ascii.is_nat c is Some _ then 1 else 0) + count_digits s'
  end.

Definition int (s : string) : result Z :=
  let s := strip s in
  let '(negative, digits) :=
    match s with
    | String "-" r => (true, r)
    | String "+" r => (false, r)
    | _ => (false, s)
    end in
  match int_digits digits 0 false with
  | Some n =>
      if 4300 <? count_digits digits then Raise ValueError
      else Return (if negative : bool then - n else n)
  | None => Raise ValueError
  end.

(** *** The [datetime] constructor called with keyword arguments *)

Definition is_leap (y : Z) : bool :=
  (y mod 4 =? 0) && (negb (y mod 100 =? 0) || (y mod 400 =? 0)).

Definition days_in_month (y m : Z) : Z :=
  if m =? 2 then (if is_leap y then 29 else 28)
  else if (m =? 4) || (m =? 6) || (m =? 9) || (m =? 11) then 30
  else 31.

(** An argument must fit a C [int]. *)
Definition c_int (v : Z) : result Z :=
  if (- 2 ^ 31 <=? v) && (v <? 2 ^ 31) then Return v else Raise OverflowError.

Definition required (kw : gmap string Z) (k : string) : result Z :=
  match kw !! k with
  | Some v => c_int v
  | None => Raise TypeError
  end.

Definition optional (kw : gmap string Z) (k : string) : result Z :=
  match kw !! k with
  | Some v => c_int v
  | None => Return 0
  end.

(** [datetime] called with the dict [kw] as its keyword arguments, for
    keys among the six field names: the arguments are read in order, then
    the ranges are checked. *)
Definition datetime_new (kw : gmap string Z) : result datetime :=
  y ← required kw "year";
  m ← required kw "month";
  d ← required kw "day";
  hh ← optional kw "hour";
  mm ← optional kw "minute";
  ss ← optional kw "second";
  if (1 <=? y) && (y <=? 9999) && (1 <=? m) && (m <=? 12)
     && (1 <=? d) && (d <=? days_in_month y m)
     && (0 <=? hh) && (hh <=? 23) && (0 <=? mm) && (mm <=? 59)
     && (0 <=? ss) && (ss <=? 59)
  then Return (mk_datetime y m d hh mm ss 0)
  else Raise ValueError.

(** *** JSON subscripts *)

(** [j[k]] for a string [k] *)
Definition getitem (j : json) (k : string) : result json :=
  match j with
  | JObject members =>
      match List.find (λ kv, bool_decide (kv.1 = k)) members with
      | Some kv => Return kv.2
      | None => Raise KeyError
      end
  | _ => Raise TypeError
  end.

(** [j[0]] *)
Definition getitem_0 (j : json) : result json :=
  match j with
  | JArray (x :: _) => Return x
  | JArray [] => Raise IndexError
  | JString (String c _) => Return (JString (String c EmptyString))
  | JString EmptyString => Raise IndexError
  | JObject _ => Raise KeyError
  | _ => Raise TypeError
  end.

(** [s.split(".")[0]] *)
Definition split_dot_0 (j : json) : result string :=
  match j with
  | JString s => Return (List.hd EmptyString (pystr.split "." s))
  | _ => Raise AttributeError
  end.

Section date_extract.
Context `{G : !Globals} `{L : !Libs}.

Definition DATETIME_TAGS : list (string * Z) :=
  foldl (λ d '(id, name),
           if bool_decide
                (name ∈ ["DateTime"; "DateTimeOriginal"; "DateTimeDigitized"])
           then dict_set name id d else d)
        [] ExifTags_TAGS.

(** The [for] loop over [FILENAME_REGEXES]: the first pattern that
    matches wins. *)
Fixpoint first_match (regexes : list string) (filename : string)
    : option Match :=
  match regexes with
  | [] => None
  | regex :: regexes' =>
      match re_search regex filename with
      | Some m => Some m
      | None => first_match regexes' filename
      end
  end.

(** [match.group(k)] *)
Definition group (m : Match) (k : string) : result (option string) :=
  match m !! k with
  | Some g => Return g
  | None => Raise IndexError
  end.

(** The dict comprehension [{k: int(match.group(k)) for k in keys if
    match.group(k)}], with [acc] the entries made so far. *)
Fixpoint datetime_parts (m : Match) (keys : list string)
    (acc : gmap string Z) : result (gmap string Z) :=
  match keys with
  | [] => Return acc
  | k :: keys' =>
      g ← group m k;
      match g with
      | Some (String c s) =>
          v ← int (String c s);
          datetime_parts m keys' (<[k := v]> acc)
      | _ => datetime_parts m keys' acc
      end
  end.

Definition get_date_from_filename (filename : string) : M datetime :=
  match first_match FILENAME_REGEXES filename with
  | None => raise (NoMatchException "")
  | Some m =>
      lift (kw ← datetime_parts m
                    ["year"; "month"; "day"; "hour"; "minute"; "second"] ∅;
            datetime_new kw)
  end.

(** The body of the [try] in [get_date_from_video_metadata]: run the probe,
    decode its output, read [media["streams"][0]["tags"]["creation_time"]]. *)
Definition probe_creation_time (path : Path) : result json :=
  out ← ffprobe_execute path;
  media ← json_loads out;
  streams ← getitem media "streams";
  stream ← getitem_0 streams;
  tags ← getitem stream "tags";
  getitem tags "creation_time".

Definition get_date_from_video_metadata (path : Path) : M datetime :=
  if negb ffmpeg_imported then raise NameError else
  datetime_str ← try_except
      (lift (probe_creation_time path))
      (λ e, bool_decide (e ∈ [KeyError; JSONDecodeError; FFmpegError]))
      (λ exc,
         log ERROR "Failed to get video metadata ! for %s. Error: %s"
             [ArgPath path; ArgExn exc];;
         raise (NoMatchException ""));
  datetime_str ← lift (split_dot_0 datetime_str);
  match strptime datetime_str "%Y-%m-%dT%H:%M:%S" with
  | Some d => mret d
  | None =>
      log WARNING "Invalid date found in video metadata ! (%s). Ignoring..."
          [ArgStr datetime_str];;
      raise (NoMatchException "")
  end.

Definition get_date_from_exif (image : Image) : M datetime :=
  match getexif image with
  | None => raise (NoMatchException "")
  | Some exif =>
      let datetime_str :=
        foldl (λ datetime_str tag_id, py_or datetime_str (exif !! tag_id))
              None (DATETIME_TAGS.*2) in
      match datetime_str with
      | None => raise (NoMatchException "")
      | Some datetime_str =>
          match strptime datetime_str "%Y:%m:%d %H:%M:%S" with
          | Some d => mret d
          | None =>
              log WARNING "Invalid date found in EXIF data ! (%s). Ignoring..."
                  [ArgStr datetime_str];;
              raise (NoMatchException "")
          end
      end
  end.

(** Step 1 of [get_snap_date], the body of its first [try]: the metadata
    source, chosen by the extension. *)
Definition metadata_source (img_path : Path) : M datetime :=
  let img_extension := pystr.drop 1 (suffix img_path) in
  if bool_decide (img_extension ∈ IMAGE_EXTENSIONS) then
    img ← lift (open_image img_path);
    get_date_from_exif img
  else if bool_decide (img_extension ∈ VIDEO_EXTENSIONS) then
    get_date_from_video_metadata img_path
  else raise (NoMatchException "Unsupported extension !").

(** Step 2, the body of its second [try]: the filename source. *)
Definition filename_source (img_path : Path) : M datetime :=
  get_date_from_filename (name img_path).

(** Steps 3a, 4 and 3b of [get_snap_date]: the decision, from what the two
    [try] statements left in [metadata_datetime] and [filename_datetime]. *)
Definition reconcile (img_path : Path)
    (metadata_datetime filename_datetime : option datetime) : M datetime :=
  match metadata_datetime, filename_datetime with
  (* 3a. *)
  | Some metadata_datetime, None =>
      log DEBUG "Using EXIF / metadata-based snap_date" [];;
      mret metadata_datetime
  | None, Some filename_datetime =>
      log DEBUG "Using filename snap_date" [];;
      mret filename_datetime
  (* 4. *)
  | None, None =>
      raise (NoMatchException
               ("Could not determine snap_date for " +:+ img_path +:+ " !"))
  (* 3b. *)
  | Some metadata_datetime, Some filename_datetime =>
      if bool_decide (metadata_datetime = filename_datetime) then
        log DEBUG "Both datetimes match." [];;
        mret metadata_datetime
      else if bool_decide (date metadata_datetime = date filename_datetime) then
        log WARNING
            ("EXIF / metadata-based and filename-based datetime only loosely match. "
             +:+ "Using EXIF / metadata-based.") [];;
        mret metadata_datetime
      else
        let msg :=
          "EXIF / metadata-based and filename-based datetime do not match !" in
        log ERROR msg [];;
        raise (NoMatchException msg)
  end.

(** The first [try] statement of [get_snap_date], with its [except] and
    [else] branches: what it leaves in [metadata_datetime]. *)
Definition try_metadata (img_path : Path) : M (option datetime) :=
  try_except_else (metadata_source img_path)
    is_NoMatchException
    (λ _, log DEBUG "Could not extract snap_date from EXIF / metadata" [];;
          mret None)
    (λ d, log DEBUG "Successfully Extracted EXIF / metadata-based snap_date: %s"
              [ArgDatetime d];;
          mret (Some d)).

(** The second [try] statement: what it leaves in [filename_datetime]. *)
Definition try_filename (img_path : Path) : M (option datetime) :=
  try_except_else (filename_source img_path)
    is_NoMatchException
    (λ _, log DEBUG "Could not extract snap_date from filename" [];;
          mret None)
    (λ d, log DEBUG "Successfully Extracted filename snap_date: %s"
              [ArgDatetime d];;
          mret (Some d)).

Definition get_snap_date (img_path : Path) : M datetime :=
  (* 1. *)
  metadata_datetime ← try_metadata img_path;
  (* 2. *)
  filename_datetime ← try_filename img_path;
  (* 3a., 4., 3b. *)
  reconcile img_path metadata_datetime filename_datetime.

(** How a source ends, as [get_snap_date] tells it: it succeeds when it
    returns a timestamp, it fails when it raises [NoMatchException]. *)
Definition succeeded (source : M datetime) (d : datetime) : Prop :=
  outcome source = Return d.

Definition failed (source : M datetime) : Prop :=
  ∃ msg, outcome source = Raise (NoMatchException msg).

(** The two terminal cases of the reconciliation: both sources fail, or
    both succeed on different calendar dates. *)
Definition terminal (img_path : Path) : Prop :=
  (failed (metadata_source img_path) ∧ failed (filename_source img_path))
  ∨ (∃ m f, succeeded (metadata_source img_path) m
            ∧ succeeded (filename_source img_path) f ∧ date m ≠ date f).

(** The record that [get_snap_date] logs on a loose match. *)
Definition loose_match_warning : LogRecord :=
  mk_LogRecord WARNING
    ("EXIF / metadata-based and filename-based datetime only loosely match. "
     +:+ "Using EXIF / metadata-based.") [].

End date_extract.
End date_extract.

(** ** picture_manip.py *)

Module picture_manip.
Section picture_manip.
Context `{G : !Globals}.
Import picture.

(** What a run of the generator [get_path_couples] holds and touches: its
    local set [used_paths], the entry [_CURR_PICTURE["picture"]] of the
    module-level dict, and the log. *)
Record state : Type := mk_state {
  used_paths : gset Path;
  _CURR_PICTURE : option Picture;
  logged : list LogRecord
}.

(** The [while] loop: [fuel] bounds the number of tests of its condition;
    the result is the final [duplicate_count] and [output_path]. *)
Fixpoint while_used (fuel : nat) (used_paths : gset Path) (picture : Picture)
    (duplicate_count : Z) : option (Z * Path) :=
  match fuel with
  | O => None
  | S fuel' =>
      let output_path := get_output_path picture duplicate_count in
      if bool_decide (output_path ∈ used_paths)
      then while_used fuel' used_paths picture (duplicate_count + 1)
      else Some (duplicate_count, output_path)
  end.

(** The two records one turn of the [for] loop logs. *)
Definition turn_records (picture : Picture) (duplicate_count : Z)
    : list LogRecord :=
  [mk_LogRecord INFO "Considering picture %s..." [ArgPicture picture];
   mk_LogRecord DEBUG "Got duplicate_count=%s" [ArgInt duplicate_count]].

(** One turn of the [for] loop, up to its [yield]. *)
Definition turn (fuel : nat) (st : state) (picture : Picture)
    : option (state * (Path * Path)) :=
  let records :=
    logged st ++ [mk_LogRecord INFO "Considering picture %s..." [ArgPicture picture]] in
  '(duplicate_count, output_path) ← while_used fuel (used_paths st) picture 1;
  let records :=
    records ++ [mk_LogRecord DEBUG "Got duplicate_count=%s" [ArgInt duplicate_count]] in
  Some (mk_state (used_paths st) (Some picture) records,
        (source_path picture, output_path)).

(** The statement after the [yield], run when the consumer asks for the
    next couple. *)
Definition resume (st : state) : state :=
  mk_state (used_paths st) None (logged st).

(** The [for] loop over the pictures, consumed to its end. *)
Fixpoint for_pictures (fuel : nat) (st : state) (pictures : list Picture)
    : option (list (Path * Path) * state) :=
  match pictures with
  | [] => Some ([], st)
  | picture :: pictures' =>
      '(st, couple) ← turn fuel st picture;
      '(couples, st) ← for_pictures fuel (resume st) pictures';
      Some (couple :: couples, st)
  end.

(** [list(get_path_couples(pictures))], with the state the run ends in. *)
Definition get_path_couples (fuel : nat) (pictures : list Picture)
    : option (list (Path * Path) * state) :=
  for_pictures fuel (mk_state ∅ None []) pictures.

End picture_manip.
End picture_manip.

(** ** A small installation, for the worked examples

    One filename pattern, a handful of files, and stand-ins for the
    libraries that behave as the libraries do on these files. *)

Module example.
Import picture date_extract.

Definition pattern : string :=
  "(?P<year>\d{4})(?P<month>\d{2})(?P<day>\d{2})_(?P<hour>\d{2})(?P<minute>\d{2})(?P<second>\d{2})".

Definition globals : Globals := {|
  IMAGE_EXTENSIONS := ["jpg"; "jpeg"; "png"; "tif"; "tiff"];
  VIDEO_EXTENSIONS := ["mp4"; "mov"; "avi"];
  FILENAME_REGEXES := [pattern]
|}.

(** Exactly [n] leading digits of [s], and the rest of [s]. *)
Fixpoint take_digits (n : nat) (s : string) : option (string * string) :=
  match n, s with
  | O, _ => Some (EmptyString, s)
  | S n', String c s' =>
      if bool_decide (is_Some (Ascii.is_nat c))
      then '(ds, rest) ← take_digits n' s'; Some (String c ds, rest)
      else None
  | S _, EmptyString => None
  end.

Definition expect (c : ascii) (s : string) : option string :=
  match s with
  | String a s' => if decide (a = c) then Some s' else None
  | EmptyString => None
  end.

(** [pattern] matched at the start of [s]. *)
Definition match_here (s : string) : option Match :=
  '(y, s) ← take_digits 4 s;
  '(m, s) ← take_digits 2 s;
  '(d, s) ← take_digits 2 s;
  s ← expect "_" s;
  '(hh, s) ← take_digits 2 s;
  '(mm, s) ← take_digits 2 s;
  '(ss, s) ← take_digits 2 s;
  Some (list_to_map [("year", Some y); ("month", Some m); ("day", Some d);
                     ("hour", Some hh); ("minute", Some mm); ("second", Some ss)]).

(** [pattern] searched through [s], leftmost match first. *)
Fixpoint search (s : string) : option Match :=
  match match_here s with
  | Some m => Some m
  | None =>
      match s with
      | EmptyString => None
      | String _ s' => search s'
      end
  end.

(** [strptime] on timestamps of fixed width, [dsep] between the date fields
    and [mid] between date and time. *)
Definition strptime_fixed (dsep mid : ascii) (s : string) : option datetime :=
  '(y, s) ← take_digits 4 s;
  s ← expect dsep s;
  '(m, s) ← take_digits 2 s;
  s ← expect dsep s;
  '(d, s) ← take_digits 2 s;
  s ← expect mid s;
  '(hh, s) ← take_digits 2 s;
  s ← expect ":" s;
  '(mm, s) ← take_digits 2 s;
  s ← expect ":" s;
  '(ss, s) ← take_digits 2 s;
  if bool_decide (s = "") then
    match y' ← int y; m' ← int m; d' ← int d;
          hh' ← int hh; mm' ← int mm; ss' ← int ss;
          datetime_new (list_to_map [("year", y'); ("month", m'); ("day", d');
                                     ("hour", hh'); ("minute", mm'); ("second", ss')])
    with
    | Return dt => Some dt
    | Raise _ => None
    end
  else None.

(** The files: a path, and the EXIF table of the image stored there, or
    [None] when the file is not an image that can be decoded. *)
Definition files : list (Path * option Exif) := [
  ("/photos/IMG_20240305_143000.jpg",
     Some (list_to_map [(36867, "2024:03:05 14:30:00")]));
  ("/photos/IMG_20240305_101500.jpg",
     Some (list_to_map [(36867, "2024:03:05 14:30:00")]));
  ("/photos/IMG_20240306_143000.jpg",
     Some (list_to_map [(36867, "2024:03:05 14:30:00")]));
  ("/photos/holiday.jpg",
     Some (list_to_map [(306, "2024:03:05 14:30:00")]));
  ("/photos/IMG_20240305_143045.png", Some ∅);
  ("/photos/scan.png", Some ∅);
  ("/photos/IMG_20241305_101500.png", Some ∅);
  ("/photos/broken.jpg", None)
].

Definition libs : Libs := {|
  re_search regex s := if bool_decide (regex = pattern) then search s else None;
  ExifTags_TAGS :=
    [(306, "DateTime"); (36867, "DateTimeOriginal"); (36868, "DateTimeDigitized")];
  open_image p :=
    match List.find (λ f, bool_decide (f.1 = p)) files with
    | Some (_, Some exif) => Return (mk_Image (Some exif))
    | Some (_, None) => Raise (OtherError "UnidentifiedImageError")
    | None => Raise (OtherError "FileNotFoundError")
    end;
  strptime s format :=
    if bool_decide (format = "%Y:%m:%d %H:%M:%S") then strptime_fixed ":" " " s
    else if bool_decide (format = "%Y-%m-%dT%H:%M:%S") then strptime_fixed "-" "T" s
    else None;
  ffmpeg_imported := true;
  ffprobe_execute _ := Raise FFmpegError;
  json_loads _ := Raise JSONDecodeError
|}.

Definition snap : datetime := mk_datetime 2024 3 5 14 30 0 0.

End example.

(** ** picture_manip.py: [collect_pictures] *)

Module collect.
Import picture date_extract.

(** A run of the generator [collect_pictures], consumed until it is
    exhausted or an exception leaves it: the pictures it yielded, the
    records it logged, and the exception that ended it, if one did. *)
Record run : Type := mk_run {
  yielded : list Picture;
  records : list LogRecord;
  ended_by : option exn
}.

(** The records [l] logged before the run [r]. *)
Definition after (l : list LogRecord) (r : run) : run :=
  mk_run (yielded r) (l ++ records r) (ended_by r).

Section collect.
Context `{G : !Globals} `{L : !Libs}.

(** [globals.SUPPORTED_EXTENSIONS], a parameter as the other constants of
    that module are. *)
Variable SUPPORTED_EXTENSIONS : list string.

(** [collect_pictures(root_path)], on the files that [walk_dir(root_path)]
    yields, in its order. *)
Fixpoint collect_pictures (files : list Path) : run :=
  match files with
  | [] => mk_run [] [] None
  | file :: files' =>
      after [mk_LogRecord DEBUG "Considering file %s" [ArgPath file]]
        (if bool_decide (pystr.drop 1 (suffix file) ∈ SUPPORTED_EXTENSIONS) then
           let call := get_snap_date file in
           after (emitted call)
             (match outcome call with
              | Raise e =>
                  if is_NoMatchException e then
                    after [mk_LogRecord ERROR
                             "Could not determine snap_date for %s ! Skipping..."
                             [ArgPath file]]
                      (collect_pictures files')
                  else mk_run [] [] (Some e)
              | Return snap_date =>
                  after [mk_LogRecord DEBUG "Extracted snap date: %s"
                           [ArgDatetime snap_date]]
                    (let rest := collect_pictures files' in
                     mk_run (mk_Picture file snap_date :: yielded rest)
                       (records rest) (ended_by rest))
              end)
         else collect_pictures files')
  end.

End collect.
End collect.

(** ** Terms of the statements about [collect_pictures] *)

Module collect_terms.
Import picture date_extract collect.
Section collect_terms.
Context `{G : !Globals} `{L : !Libs}.
Variable SUPPORTED_EXTENSIONS : list string.

(** The test of [collect_pictures] on a file. *)
Definition supported (file : Path) : Prop :=
  pystr.drop 1 (suffix file) ∈ SUPPORTED_EXTENSIONS.

(** The picture a file gives: none when its extension is not supported or
    [get_snap_date] does not return. *)
Definition picture_of (file : Path) : option Picture :=
  if bool_decide (pystr.drop 1 (suffix file) ∈ SUPPORTED_EXTENSIONS) then
    match outcome (get_snap_date file) with
    | Return snap_date => Some (mk_Picture file snap_date)
    | Raise _ => None
    end
  else None.

(** A file on which [get_snap_date] would be called and would raise an
    exception other than [NoMatchException]. *)
Definition breaks (file : Path) : Prop :=
  supported file
  ∧ ∃ e, outcome (get_snap_date file) = Raise e
         ∧ is_NoMatchException e = false.

End collect_terms.
End collect_terms.

(** ** Terms of the statements about the sources *)

Module terms.
Import date_extract.

(** The integer a named group of a match stands for: none when the group
    took no part in the match, matched the empty text, or holds no
    integer. *)
Definition group_int (m : Match) (k : string) : option Z :=
  match m !! k with
  | Some (Some (String c s)) =>
      match int (String c s) with
      | Return v => Some v
      | Raise _ => None
      end
  | _ => None
  end.

(** A timestamp the [datetime] constructor accepts, without microseconds. *)
Definition valid_datetime (d : datetime) : Prop :=
  1 ≤ year d ≤ 9999 ∧ 1 ≤ month d ≤ 12
  ∧ 1 ≤ day d ≤ days_in_month (year d) (month d)
  ∧ 0 ≤ hour d ≤ 23 ∧ 0 ≤ minute d ≤ 59 ∧ 0 ≤ second d ≤ 59
  ∧ microsecond d = 0.

(** The six field names, in the order the comprehension visits them. *)
Definition FIELDS : list string :=
  ["year"; "month"; "day"; "hour"; "minute"; "second"].

(** A value that [x or y] passes over: [None] or the empty string. *)
Definition falsy (x : option string) : Prop := x = None ∨ x = Some "".

End terms.

(** ** More of the small installation: other patterns, and videos *)

Module example_more.
Import picture date_extract.

(** A date, then perhaps a time. *)
Definition pattern_time_optional : string :=
  "(?P<year>\d{4})(?P<month>\d{2})(?P<day>\d{2})(?:_(?P<hour>\d{2})(?P<minute>\d{2})(?P<second>\d{2}))?".

(** Perhaps a date, then a time. *)
Definition pattern_date_optional : string :=
  "(?:(?P<year>\d{4})(?P<month>\d{2})(?P<day>\d{2}))?_(?P<hour>\d{2})(?P<minute>\d{2})(?P<second>\d{2})".

(** A date only: the pattern defines no time group. *)
Definition pattern_date_only : string :=
  "(?P<year>\d{4})(?P<month>\d{2})(?P<day>\d{2})".

(** The pattern of [example], for names that start with [VID_]. *)
Definition pattern_vid : string := "^VID_" +:+ example.pattern.

Definition date_here (s : string) : option (string * string * string * string) :=
  '(y, s) ← example.take_digits 4 s;
  '(m, s) ← example.take_digits 2 s;
  '(d, s) ← example.take_digits 2 s;
  Some (y, m, d, s).

Definition time_here (s : string) : option (string * string * string) :=
  s ← example.expect "_" s;
  '(hh, s) ← example.take_digits 2 s;
  '(mm, s) ← example.take_digits 2 s;
  '(ss, s) ← example.take_digits 2 s;
  Some (hh, mm, ss).

(** The first position of [s] where [here] matches. *)
Fixpoint search_with (here : string → option Match) (s : string)
    : option Match :=
  match here s with
  | Some m => Some m
  | None =>
      match s with
      | EmptyString => None
      | String _ s' => search_with here s'
      end
  end.

Definition time_optional_here (s : string) : option Match :=
  '(y, m, d, s) ← date_here s;
  Some (match time_here s with
        | Some (hh, mm, ss) =>
            list_to_map [("year", Some y); ("month", Some m); ("day", Some d);
                         ("hour", Some hh); ("minute", Some mm);
                         ("second", Some ss)]
        | None =>
            list_to_map [("year", Some y); ("month", Some m); ("day", Some d);
                         ("hour", None); ("minute", None); ("second", None)]
        end).

Definition date_optional_here (s : string) : option Match :=
  match '(y, m, d, s) ← date_here s; '(hh, mm, ss) ← time_here s;
        Some (y, m, d, hh, mm, ss) with
  | Some (y, m, d, hh, mm, ss) =>
      Some (list_to_map [("year", Some y); ("month", Some m); ("day", Some d);
                         ("hour", Some hh); ("minute", Some mm);
                         ("second", Some ss)])
  | None =>
      '(hh, mm, ss) ← time_here s;
      Some (list_to_map [("year", None); ("month", None); ("day", None);
                         ("hour", Some hh); ("minute", Some mm);
                         ("second", Some ss)])
  end.

Definition date_only_here (s : string) : option Match :=
  '(y, m, d, _) ← date_here s;
  Some (list_to_map [("year", Some y); ("month", Some m); ("day", Some d)]).

Definition vid_at_start (s : string) : option Match :=
  if pystr.startswith "VID_" s then example.match_here (pystr.drop 4 s)
  else None.

(** The files of [example], and two more: an image that cannot be decoded
    under a name that holds a date, and a good image under a name whose
    month reads 13. *)
Definition files : list (Path * option Exif) :=
  example.files ++ [
    ("/photos/damaged/IMG_20240305_143000.jpg", None);
    ("/photos/IMG_20241305_101500.jpg",
       Some (list_to_map [(36867, "2024:03:05 14:30:00")]))
  ].

(** The output of the probe on the two videos, as tokens: the decoder below
    knows what each stands for. *)
Definition probe_output (path : Path) : string := "ffprobe " +:+ path.

Definition libs : Libs := {|
  re_search regex s :=
    if bool_decide (regex = example.pattern) then example.search s
    else if bool_decide (regex = pattern_time_optional)
    then search_with time_optional_here s
    else if bool_decide (regex = pattern_date_optional)
    then search_with date_optional_here s
    else if bool_decide (regex = pattern_date_only)
    then search_with date_only_here s
    else if bool_decide (regex = pattern_vid) then vid_at_start s
    else None;
  ExifTags_TAGS := ExifTags_TAGS (Libs := example.libs);
  open_image p :=
    match List.find (λ f, bool_decide (f.1 = p)) files with
    | Some (_, Some exif) => Return (mk_Image (Some exif))
    | Some (_, None) => Raise (OtherError "UnidentifiedImageError")
    | None => Raise (OtherError "FileNotFoundError")
    end;
  strptime := strptime (Libs := example.libs);
  ffmpeg_imported := true;
  ffprobe_execute path :=
    if bool_decide (path ∈ ["/videos/clip.mp4"; "/videos/empty.mp4"])
    then Return (probe_output path) else Raise FFmpegError;
  json_loads out :=
    if bool_decide (out = probe_output "/videos/clip.mp4") then
      Return (JObject [("streams",
        JArray [JObject [("index", JNumber "0");
                         ("tags", JObject [("creation_time",
                            JString "2024-03-05T14:30:00.000000Z")])]])])
    else if bool_decide (out = probe_output "/videos/empty.mp4") then
      Return (JObject [("streams", JArray [])])
    else Raise JSONDecodeError
|}.

(** The globals of [example], with other patterns. *)
Definition globals (regexes : list string) : Globals := {|
  IMAGE_EXTENSIONS := IMAGE_EXTENSIONS (Globals := example.globals);
  VIDEO_EXTENSIONS := VIDEO_EXTENSIONS (Globals := example.globals);
  FILENAME_REGEXES := regexes
|}.

Definition SUPPORTED_EXTENSIONS : list string :=
  IMAGE_EXTENSIONS (Globals := example.globals)
  ++ VIDEO_EXTENSIONS (Globals := example.globals).

End example_more.

(** * Properties *)

(** ** Strings *)

Module pystr_facts.
Import pystr.

Lemma app_nil_l (s : string) : "" +:+ s = s.
Proof. reflexivity. Qed.

Lemma app_cons (c : ascii) (a b : string) :
  String c a +:+ b = String c (a +:+ b).
Proof. reflexivity. Qed.

Lemma app_nil_r (s : string) : s +:+ "" = s.
Proof. induction s as [|c s IH]; [done|]. by rewrite app_cons, IH. Qed.

Lemma app_assoc (a b c : string) : (a +:+ b) +:+ c = a +:+ b +:+ c.
Proof.
  induction a as [|x a IH]; [done|]. by rewrite !app_cons, IH.
Qed.

Lemma length_app (a b : string) :
  String.length (a +:+ b) = (String.length a + String.length b)%nat.
Proof.
  induction a as [|x a IH]; [done|]. rewrite app_cons. simpl. by rewrite IH.
Qed.

Lemma app_inv_tail (a b c : string) : a +:+ c = b +:+ c → a = b.
Proof.
  revert b. induction a as [|x a IH]; intros [|y b] H.
  - done.
  - apply (f_equal String.length) in H.
    rewrite app_nil_l, app_cons in H. simpl in H.
    rewrite length_app in H. lia.
  - apply (f_equal String.length) in H.
    rewrite app_nil_l, app_cons in H. simpl in H.
    rewrite length_app in H. lia.
  - rewrite !app_cons in H. injection H as -> H. f_equal. by apply IH.
Qed.

Lemma all_app (P : ascii → bool) (a b : string) :
  all P (a +:+ b) = all P a && all P b.
Proof.
  induction a as [|x a IH]; [done|].
  rewrite app_cons. simpl. rewrite IH. by rewrite andb_assoc.
Qed.

Lemma all_impl (P Q : ascii → bool) (s : string) :
  (∀ c, P c = true → Q c = true) → all P s = true → all Q s = true.
Proof.
  intros HPQ. induction s as [|c s IH]; [done|]. simpl.
  intros [? ?]%andb_true_iff. apply andb_true_iff. auto.
Qed.

Lemma all_drop (P : ascii → bool) (n : nat) (s : string) :
  all P s = true → all P (drop n s) = true.
Proof.
  revert s. induction n as [|n IH]; intros [|c s]; simpl; try done.
  intros [? ?]%andb_true_iff. auto.
Qed.

Lemma all_lower (P : ascii → bool) (s : string) :
  (∀ c, P c = true → P (lower_char c) = true) →
  all P s = true → all P (lower s) = true.
Proof.
  intros HP. induction s as [|c s IH]; [done|]. simpl.
  intros [? ?]%andb_true_iff. apply andb_true_iff. auto.
Qed.

Lemma split_none (sep : ascii) (s : string) :
  all (isnt sep) s = true → split sep s = [s].
Proof.
  induction s as [|c s IH]; [done|]. simpl.
  intros [Hc Hs]%andb_true_iff. apply bool_decide_eq_true in Hc.
  rewrite decide_False by done. by rewrite IH.
Qed.

Lemma split_app (sep : ascii) (a b : string) :
  all (isnt sep) a = true →
  split sep (a +:+ String sep b) = a :: split sep b.
Proof.
  induction a as [|c a IH].
  - intros _. rewrite app_nil_l. simpl. by rewrite decide_True.
  - simpl. intros [Hc Ha]%andb_true_iff. apply bool_decide_eq_true in Hc.
    rewrite ?app_cons. simpl. rewrite decide_False by done. by rewrite IH.
Qed.

Lemma split_join (sep : ascii) (l : list string) :
  l ≠ [] → Forall (λ x, all (isnt sep) x = true) l →
  split sep (join (String sep "") l) = l.
Proof.
  induction l as [|x l IH]; [done|]. intros _ Hall.
  apply Forall_cons in Hall as [Hx Hl]. destruct l as [|y l].
  - simpl. by apply split_none.
  - change (join (String sep "") (x :: y :: l))
      with (x +:+ String sep "" +:+ join (String sep "") (y :: l)).
    rewrite app_cons, app_nil_l, split_app by done.
    by rewrite IH.
Qed.

(** Every component that [split] returns is free of the separator. *)
Lemma split_all (sep : ascii) (s : string) :
  Forall (λ x, all (isnt sep) x = true) (split sep s).
Proof.
  induction s as [|c s IH]; simpl.
  - by repeat constructor.
  - destruct (decide (c = sep)) as [->|Hne].
    + by constructor.
    + destruct (split sep s) as [|x xs].
      * repeat constructor. simpl. unfold isnt.
        by rewrite andb_true_r, bool_decide_eq_true.
      * apply Forall_cons in IH as [Hx Hxs]. constructor; [|done].
        simpl. rewrite Hx, andb_true_r. unfold isnt.
        by apply bool_decide_eq_true.
Qed.

Lemma split_nonempty (sep : ascii) (s : string) : split sep s ≠ [].
Proof.
  destruct s as [|c s]; simpl; [done|].
  destruct (decide (c = sep)); [done|]. by destruct (split sep s).
Qed.

Lemma startswith_head (c : ascii) (P : ascii → bool) (a b : string) :
  P c = false → all P a = true → a ≠ "" →
  startswith (String c "") (a +:+ b) = false.
Proof.
  intros Hc Ha Hne. destruct a as [|x a]; [done|].
  rewrite app_cons. simpl in Ha. apply andb_true_iff in Ha as [Hx _].
  unfold startswith. simpl. destruct (ascii_dec c x) as [->|]; [|done].
  congruence.
Qed.

End pystr_facts.

(** ** Decimal rendering of integers *)

Module pretty_facts.
Import pystr pystr_facts.

Lemma numeric_char (x : N) : numeric (pretty_N_char x) = true.
Proof. unfold pretty_N_char. by repeat case_match. Qed.

Lemma pretty_N_go_all (x : N) (s : string) :
  all numeric s = true → all numeric (pretty_N_go x s) = true.
Proof.
  revert s. induction (N.lt_wf_0 x) as [x _ IH]; intros s Hs.
  assert (x = 0 ∨ 0 < x)%N as [->|?] by lia.
  - by rewrite pretty_N_go_0.
  - rewrite pretty_N_go_step by done. apply IH.
    + by apply N.div_lt.
    + simpl. by rewrite numeric_char, Hs.
Qed.

Lemma pretty_N_go_length (x : N) (s : string) :
  (String.length s ≤ String.length (pretty_N_go x s))%nat.
Proof.
  revert s. induction (N.lt_wf_0 x) as [x _ IH]; intros s.
  assert (x = 0 ∨ 0 < x)%N as [->|?] by lia.
  - by rewrite pretty_N_go_0.
  - rewrite pretty_N_go_step by done.
    etrans; [|apply IH; by apply N.div_lt]. simpl. lia.
Qed.

Lemma pretty_N_all (x : N) : all numeric (pretty x) = true.
Proof.
  unfold pretty, pretty_N. case_decide; [done|]. by apply pretty_N_go_all.
Qed.

Lemma pretty_N_length (x : N) : (1 ≤ String.length (pretty x))%nat.
Proof.
  unfold pretty, pretty_N. case_decide; [simpl; lia|].
  rewrite pretty_N_go_step by lia.
  etrans; [|apply pretty_N_go_length]. simpl. lia.
Qed.

Lemma pretty_Z_all (x : Z) : all numeric (pretty x) = true.
Proof.
  destruct x as [|p|p]; unfold pretty, pretty_Z; [done| |].
  - apply pretty_N_all.
  - rewrite all_app. simpl. apply pretty_N_all.
Qed.

Lemma pretty_Z_length (x : Z) : (1 ≤ String.length (pretty x))%nat.
Proof.
  destruct x as [|p|p]; unfold pretty, pretty_Z; [simpl; lia| |].
  - apply pretty_N_length.
  - rewrite length_app. simpl. lia.
Qed.

Lemma pretty_Z_isnt (sep : ascii) (x : Z) :
  numeric sep = false → all (isnt sep) (pretty x) = true.
Proof.
  intros Hsep. apply all_impl with (P := numeric); [|apply pretty_Z_all].
  intros c Hc. apply bool_decide_eq_true. congruence.
Qed.

Lemma pretty_Z_nonempty (x : Z) : pretty x ≠ "".
Proof.
  intros H. pose proof (pretty_Z_length x) as Hl. rewrite H in Hl.
  simpl in Hl. lia.
Qed.

Lemma pretty_Z_not_dot (x : Z) : pretty x ≠ ".".
Proof.
  intros H. pose proof (pretty_Z_all x) as Ha. by rewrite H in Ha.
Qed.

(** No padding: the rendering of a positive integer does not start with
    a zero. *)
Lemma pretty_N_go_head (x : N) (s : string) :
  (0 < x)%N → ∃ c s', pretty_N_go x s = String c s' ∧ c ≠ "0"%char.
Proof.
  revert s. induction (N.lt_wf_0 x) as [x _ IH]; intros s Hx.
  rewrite pretty_N_go_step by done.
  destruct (N.eq_0_gt_0_cases (x `div` 10)) as [Hq|Hq].
  - rewrite Hq, pretty_N_go_0. eexists _, _. split; [done|].
    apply N.div_small_iff in Hq; [|done]. rewrite N.mod_small by done.
    intros Hzero. change "0"%char with (pretty_N_char 0) in Hzero.
    apply pretty_N_char_inj in Hzero; lia.
  - apply IH; [|done]. by apply N.div_lt.
Qed.

Lemma pretty_Z_unpadded (x : Z) :
  0 < x → ∃ c s', pretty x = String c s' ∧ c ≠ "0"%char.
Proof.
  destruct x as [|p|p]; [lia| |lia]. intros _.
  change (pretty (Z.pos p)) with (pretty (N.pos p)).
  unfold pretty, pretty_N. rewrite decide_False by done.
  by apply pretty_N_go_head.
Qed.

End pretty_facts.

(** ** Paths *)

Module pathlib_facts.
Import pystr pystr_facts.

Lemma component_is_part (x : string) : component x → is_part x = true.
Proof.
  intros (_ & H1 & H2). unfold is_part.
  by rewrite !bool_decide_eq_false_2.
Qed.

Lemma component_head (x rest : string) :
  component x → startswith "/" (x +:+ rest) = false.
Proof.
  intros (Hs & Hne & _).
  apply startswith_head with (P := isnt "/"); done.
Qed.

Lemma join_cons (x : string) (l : list string) :
  join "/" (x :: l) = x +:+ (if l is [] then "" else "/" +:+ join "/" l).
Proof. destruct l; simpl; [by rewrite app_nil_r|done]. Qed.

(** [Path(s)] leaves a slash-joined list of components as it is. *)
Lemma of_str_components (l : list string) :
  l ≠ [] → Forall component l → of_str (join "/" l) = join "/" l.
Proof.
  intros Hne Hall. unfold of_str.
  rewrite split_join; [|done|by eapply Forall_impl; [exact Hall|intros ? []]].
  assert (filter (λ x, is_part x = true) l = l) as ->.
  { clear Hne. induction Hall as [|x l Hx _ IH]; [done|].
    rewrite filter_cons_True by by apply component_is_part. by rewrite IH. }
  destruct l as [|x l]; [done|]. apply Forall_cons in Hall as [Hx _].
  assert (root_of (join "/" (x :: l)) = "") as ->.
  { unfold root_of. rewrite join_cons. by rewrite component_head. }
  rewrite app_nil_l, bool_decide_eq_false_2; [done|].
  rewrite join_cons. intros H. apply (f_equal String.length) in H.
  rewrite length_app in H. destruct Hx as (_ & Hx & _).
  destruct x; [done|]. simpl in H. lia.
Qed.

(** Joining a file name to a relative directory made of components. *)
Lemma joinpath_components (l : list string) (f : string) :
  l ≠ [] → Forall component l → component f →
  joinpath (join "/" l) f = join "/" (l ++ [f]).
Proof.
  intros Hne Hall Hf. unfold joinpath.
  destruct l as [|x l]; [done|].
  pose proof Hall as [Hx _]%Forall_cons.
  rewrite <-(app_nil_r f) at 1. rewrite (component_head f) by done.
  assert (startswith "/" (join "/" (x :: l)) = false) as Hhead.
  { rewrite join_cons. by apply component_head. }
  rewrite !bool_decide_eq_false_2.
  - simpl orb. cbv iota.
    assert (join "/" (x :: l) +:+ "/" +:+ f = join "/" ((x :: l) ++ [f])) as ->.
    { clear Hne Hall Hx Hhead. revert x. induction l as [|y l IH]; intros x.
      - done.
      - change (join "/" (x :: y :: l)) with (x +:+ "/" +:+ join "/" (y :: l)).
        change (join "/" ((x :: y :: l) ++ [f]))
          with (x +:+ "/" +:+ join "/" ((y :: l) ++ [f])).
        by rewrite <-IH, !app_assoc. }
    apply of_str_components; [done|].
    apply Forall_app; split; [done|by constructor].
  - intros H. by rewrite H in Hhead.
  - intros H. by rewrite H in Hhead.
  - intros H. destruct Hx as (_ & Hx & Hd). destruct l as [|y l].
    + by simpl in H.
    + rewrite join_cons in H. apply (f_equal String.length) in H.
      rewrite !length_app in H. destruct x; [done|]. simpl in H. lia.
Qed.

End pathlib_facts.

(** ** picture.py: canonical extension and output path *)

Module picture_facts.
Import pystr pystr_facts pretty_facts pathlib pathlib_facts picture.

Lemma lower_char_isnt_slash (c : ascii) :
  isnt "/" c = true → isnt "/" (lower_char c) = true.
Proof. by destruct c as [[] [] [] [] [] [] [] []]. Qed.

Lemma last_Forall {A} (P : A → Prop) (l : list A) (d : A) :
  Forall P l → P d → P (List.last l d).
Proof.
  intros Hl Hd. induction Hl as [|x l Hx Hl IH]; [done|].
  destruct l; [done|]. exact IH.
Qed.

Lemma name_no_slash (p : Path) : all (isnt "/") (name p) = true.
Proof.
  unfold name. case_bool_decide; [done|].
  apply (last_Forall (λ x, all (isnt "/") x = true)); [|done].
  apply split_all.
Qed.

Lemma suffix_no_slash (p : Path) : all (isnt "/") (suffix p) = true.
Proof.
  unfold suffix. destruct (_ && _); [|done].
  apply all_drop, name_no_slash.
Qed.

Lemma extension_no_slash (p : Picture) : all (isnt "/") (extension p) = true.
Proof.
  unfold extension. repeat case_bool_decide; [done..|].
  apply all_drop, all_lower; [apply lower_char_isnt_slash|].
  apply suffix_no_slash.
Qed.

Lemma pretty_component (x : Z) : component (pretty x).
Proof.
  split; [by apply pretty_Z_isnt|].
  split; [apply pretty_Z_nonempty|apply pretty_Z_not_dot].
Qed.

Section output_path.
Context `{G : !Globals}.

Lemma filename_flat (p : Picture) (n : Z) :
  filename p n =
    pretty (year (snap_date p)) +:+ "-" +:+ pretty (month (snap_date p))
    +:+ "-" +:+ pretty (day (snap_date p)) +:+ "-" +:+ pretty (hour (snap_date p))
    +:+ "h" +:+ pretty (minute (snap_date p))
    +:+ (if bool_decide (second (snap_date p) ≠ 0)
         then "m" +:+ pretty (second (snap_date p)) +:+ "s" else "")
    +:+ "_" +:+ (if is_video p then "VID" else "IMG")
    +:+ pretty n +:+ "." +:+ extension p.
Proof. unfold filename, ymdhms_str. by rewrite !app_assoc. Qed.

Lemma filename_component (p : Picture) (n : Z) : component (filename p n).
Proof.
  rewrite filename_flat. split; [|split].
  - rewrite !all_app, !pretty_Z_isnt, extension_no_slash by done.
    by destruct (bool_decide _), (is_video _);
      rewrite ?all_app, ?pretty_Z_isnt by done.
  - intros H. apply (f_equal String.length) in H.
    rewrite !length_app in H. simpl in H. lia.
  - intros H. apply (f_equal String.length) in H.
    rewrite !length_app in H. simpl in H. lia.
Qed.

(** The normalisations of [Path(...)] and [/] change nothing here. *)
Lemma get_output_path_eq (p : Picture) (n : Z) :
  get_output_path p n =
    pretty (year (snap_date p)) +:+ "/" +:+ pretty (month (snap_date p))
    +:+ "/" +:+ filename p n.
Proof.
  unfold get_output_path, folder.
  set (y := pretty (year (snap_date p))).
  set (m := pretty (month (snap_date p))).
  change (y +:+ "/" +:+ m) with (join "/" [y; m]).
  assert (Forall component [y; m]) as Hym.
  { repeat constructor; apply pretty_component. }
  rewrite of_str_components by done.
  rewrite joinpath_components by (done || apply filename_component).
  reflexivity.
Qed.

(** Distinct counters give distinct paths. *)
Lemma get_output_path_inj (p : Picture) (n n' : Z) :
  get_output_path p n = get_output_path p n' → n = n'.
Proof.
  rewrite !get_output_path_eq, !filename_flat. intros H.
  repeat (apply String.app_inj in H).
  rewrite <-!app_assoc in H. do 2 apply app_inv_tail in H.
  by apply (inj pretty) in H.
Qed.

(** C7. The output path is
    [<year>/<month>/<year>-<month>-<day>-<hour>h<minute>[m<second>s]_<TAG><n>.<ext>]:
    every number in plain decimal without padding, the seconds part present
    exactly when the second is not zero, the tag [VID] for a video extension
    and [IMG] otherwise, the extension the canonical one. This holds for
    every counter [n], so for every [n >= 1]. *)
Theorem get_output_path_format (p : Picture) (n : Z) :
  get_output_path p n =
    pretty (year (snap_date p)) +:+ "/" +:+ pretty (month (snap_date p))
    +:+ "/" +:+ pretty (year (snap_date p)) +:+ "-"
    +:+ pretty (month (snap_date p)) +:+ "-" +:+ pretty (day (snap_date p))
    +:+ "-" +:+ pretty (hour (snap_date p)) +:+ "h"
    +:+ pretty (minute (snap_date p))
    +:+ (if bool_decide (second (snap_date p) ≠ 0)
         then "m" +:+ pretty (second (snap_date p)) +:+ "s" else "")
    +:+ "_"
    +:+ (if bool_decide (extension p ∈ VIDEO_EXTENSIONS) then "VID" else "IMG")
    +:+ pretty n +:+ "." +:+ extension p.
Proof. by rewrite get_output_path_eq, filename_flat. Qed.

End output_path.

Example get_output_path_image :
  get_output_path (G := example.globals)
    (mk_Picture "/photos/IMG_20240305_143000.JPEG" example.snap) 1
  = "2024/3/2024-3-5-14h30_IMG1.jpg".
Proof. vm_compute. reflexivity. Qed.

Example get_output_path_video :
  get_output_path (G := example.globals)
    (mk_Picture "/photos/clip.mp4" (mk_datetime 2024 3 5 14 30 45 0)) 2
  = "2024/3/2024-3-5-14h30m45s_VID2.mp4".
Proof. vm_compute. reflexivity. Qed.

Lemma lower_char_not_upper (c : ascii) : is_upper (lower_char c) = false.
Proof. by destruct c as [[] [] [] [] [] [] [] []]. Qed.

Lemma lower_not_upper (s : string) :
  all (λ c, negb (is_upper c)) (lower s) = true.
Proof.
  induction s as [|c s IH]; [done|]. simpl.
  by rewrite lower_char_not_upper, IH.
Qed.

(** C9. The canonical extension is the suffix of the source path without
    its dot, in lower case, with [jpeg] replaced by [jpg] and [tiff] by
    [tif], and anything else left as it is; it holds no capital letter.
    [photo.JPEG] gives [jpg] and [clip.TIFF] gives [tif]. *)
Theorem extension_canonical (p : Picture) :
  let ext := drop 1 (lower (suffix (source_path p))) in
  (ext = "jpeg" → extension p = "jpg")
  ∧ (ext = "tiff" → extension p = "tif")
  ∧ (ext ≠ "jpeg" → ext ≠ "tiff" → extension p = ext)
  ∧ all (λ c, negb (is_upper c)) (extension p) = true
  ∧ (source_path p = "photo.JPEG" → extension p = "jpg")
  ∧ (source_path p = "clip.TIFF" → extension p = "tif").
Proof.
  unfold extension. repeat split.
  - by intros ->.
  - by intros ->.
  - intros ? ?. by rewrite !bool_decide_eq_false_2.
  - repeat case_bool_decide; [done..|]. apply all_drop, lower_not_upper.
  - by intros ->.
  - by intros ->.
Qed.

Lemma extension_canonical_witness :
  extension (mk_Picture "photo.JPEG" example.snap) = "jpg"
  ∧ extension (mk_Picture "clip.TIFF" example.snap) = "tif"
  ∧ extension (mk_Picture "/photos/Scan.PnG" example.snap) = "png".
Proof.
  split; [|split].
  - apply (extension_canonical (mk_Picture "photo.JPEG" example.snap)).
    reflexivity.
  - apply (extension_canonical (mk_Picture "clip.TIFF" example.snap)).
    reflexivity.
  - apply (extension_canonical (mk_Picture "/photos/Scan.PnG" example.snap));
      vm_compute; discriminate.
Defined.

End picture_facts.

(** ** date_extract.py: the reconciler *)

Module date_extract_facts.
Import date_extract.

Ltac run_M :=
  unfold try_except_else, try_except, outcome, warnings, emitted, log, raise,
    lift, mbind, M_bind, mret, M_ret in *.

Section reconciler.
Context `{G : !Globals} `{L : !Libs}.

(** *** What the sources log when they succeed *)

Lemma get_date_from_exif_quiet (image : Image) (d : datetime) :
  outcome (get_date_from_exif image) = Return d →
  emitted (get_date_from_exif image) = [].
Proof.
  unfold get_date_from_exif. run_M.
  destruct (getexif image) as [exif|]; [|done].
  destruct (foldl _ _ _) as [s|]; [|done].
  by destruct (strptime s _).
Qed.

Lemma get_date_from_video_metadata_quiet (path : Path) (d : datetime) :
  outcome (get_date_from_video_metadata path) = Return d →
  emitted (get_date_from_video_metadata path) = [].
Proof.
  unfold get_date_from_video_metadata. run_M.
  destruct ffmpeg_imported; [|done]. simpl.
  destruct (probe_creation_time path) as [j|e]; simpl.
  - destruct (split_dot_0 j) as [s|e]; simpl; [|done].
    by destruct (strptime s _).
  - by destruct (bool_decide _).
Qed.

Lemma metadata_source_quiet (p : Path) (d : datetime) :
  outcome (metadata_source p) = Return d → emitted (metadata_source p) = [].
Proof.
  unfold metadata_source. repeat case_bool_decide.
  - unfold mbind, M_bind, lift. simpl. destruct (open_image p) as [img|e]; [|done].
    unfold outcome, emitted. simpl. intros Hd.
    by apply (get_date_from_exif_quiet img d).
  - apply get_date_from_video_metadata_quiet.
  - done.
Qed.

Lemma filename_source_quiet (p : Path) : emitted (filename_source p) = [].
Proof.
  unfold filename_source, get_date_from_filename.
  by destruct (first_match _ _).
Qed.

(** *** The outcome of [get_snap_date] from the outcomes of its sources *)

Lemma get_snap_date_outcome (p : Path) :
  outcome (get_snap_date p) =
    match outcome (metadata_source p), outcome (filename_source p) with
    | Raise e, _ =>
        if is_NoMatchException e then
          match outcome (filename_source p) with
          | Return f => Return f
          | Raise e' =>
              if is_NoMatchException e'
              then Raise (NoMatchException
                            ("Could not determine snap_date for " +:+ p +:+ " !"))
              else Raise e'
          end
        else Raise e
    | Return m, Return f =>
        if bool_decide (m = f) then Return m
        else if bool_decide (date m = date f) then Return m
        else Raise (NoMatchException
                      "EXIF / metadata-based and filename-based datetime do not match !")
    | Return m, Raise e' =>
        if is_NoMatchException e' then Return m else Raise e'
    end.
Proof.
  unfold get_snap_date, try_metadata, try_filename, reconcile. run_M.
  destruct (metadata_source p) as [lm [m|e]], (filename_source p) as [lf [f|e']];
    simpl.
  - by repeat case_bool_decide.
  - by destruct (is_NoMatchException e').
  - by destruct (is_NoMatchException e).
  - by destruct (is_NoMatchException e), (is_NoMatchException e').
Qed.

Lemma get_snap_date_warnings (p : Path) (m f : datetime) :
  succeeded (metadata_source p) m → succeeded (filename_source p) f →
  warnings (get_snap_date p) =
    if bool_decide (m = f) then []
    else if bool_decide (date m = date f) then [loose_match_warning]
    else [].
Proof.
  intros Hm Hf. pose proof (metadata_source_quiet p m Hm) as Hqm.
  pose proof (filename_source_quiet p) as Hqf.
  unfold succeeded in *.
  unfold get_snap_date, try_metadata, try_filename, reconcile. run_M.
  destruct (metadata_source p) as [lm rm], (filename_source p) as [lf rf].
  simpl in *. subst. simpl.
  by repeat case_bool_decide.
Qed.

Lemma failed_outcome (source : M datetime) :
  failed source →
  ∃ e, outcome source = Raise e ∧ is_NoMatchException e = true.
Proof. intros [msg ->]. by eexists. Qed.

(** An error of another class leaves [get_snap_date] as it left the
    source. *)
Lemma metadata_error_escapes (p : Path) (e : exn) :
  outcome (metadata_source p) = Raise e → is_NoMatchException e = false →
  outcome (get_snap_date p) = Raise e.
Proof. intros He Hn. by rewrite get_snap_date_outcome, He, Hn. Qed.

Lemma filename_error_escapes (p : Path) (e : exn) :
  (failed (metadata_source p) ∨ ∃ m, succeeded (metadata_source p) m) →
  outcome (filename_source p) = Raise e → is_NoMatchException e = false →
  outcome (get_snap_date p) = Raise e.
Proof.
  intros Hm He Hn. rewrite get_snap_date_outcome, He, Hn.
  destruct Hm as [(e' & -> & ->)%failed_outcome|[m ->]]; done.
Qed.

(** *** The filename source once a pattern has matched *)

Lemma int_raises (s : string) (e : exn) : int s = Raise e → e = ValueError.
Proof.
  unfold int. destruct (match strip s with "" => _ | _ => _ end) as [neg ds].
  destruct (int_digits ds 0 false); [|by intros [= <-]].
  destruct (4300 <? count_digits ds); [by intros [= <-]|done].
Qed.

Lemma datetime_parts_raises (m : Match) (keys : list string)
    (acc : gmap string Z) (e : exn) :
  datetime_parts m keys acc = Raise e → e = IndexError ∨ e = ValueError.
Proof.
  revert acc. induction keys as [|k keys IH]; intros acc; simpl; [done|].
  unfold group. destruct (m !! k) as [[[|c s]|]|]; simpl; eauto.
  - destruct (int (String c s)) as [v|e'] eqn:Hint; simpl; [eauto|].
    intros [= <-]. right. by eapply int_raises.
  - intros [= <-]. by left.
Qed.

Lemma datetime_new_raises (kw : gmap string Z) (e : exn) :
  datetime_new kw = Raise e →
  e = TypeError ∨ e = OverflowError ∨ e = ValueError.
Proof.
  unfold datetime_new, required, optional, c_int.
  repeat (case_match; simpl; try naive_solver).
Qed.

(** Once a pattern has matched, the filename source returns a timestamp or
    raises a built-in error: it never reports "no evidence". *)
Lemma get_date_from_filename_matched (filename : string) (m : Match) :
  first_match FILENAME_REGEXES filename = Some m →
  ¬ failed (get_date_from_filename filename).
Proof.
  intros Hm [msg Hmsg]. unfold get_date_from_filename in Hmsg.
  rewrite Hm in Hmsg. unfold outcome, lift in Hmsg. cbn [snd] in Hmsg.
  destruct (datetime_parts m _ ∅) as [kw|e] eqn:Hparts; cbn [mbind result_bind] in Hmsg.
  - apply datetime_new_raises in Hmsg as [?|[?|?]]; discriminate.
  - injection Hmsg as ->.
    apply datetime_parts_raises in Hparts as [?|?]; discriminate.
Qed.

(** A match whose month group reads "13" makes the source raise
    [ValueError], whatever the patterns are. *)
Lemma get_date_from_filename_month_13 (filename : string) :
  first_match FILENAME_REGEXES filename
    = Some (list_to_map [("year", Some "2024"); ("month", Some "13");
                         ("day", Some "05"); ("hour", Some "10");
                         ("minute", Some "15"); ("second", Some "00")]) →
  outcome (get_date_from_filename filename) = Raise ValueError.
Proof. intros Hm. unfold get_date_from_filename. by rewrite Hm. Qed.

Lemma is_NoMatchException_true (e : exn) :
  is_NoMatchException e = true ↔ ∃ msg, e = NoMatchException msg.
Proof.
  destruct e; simpl; split; try done; try (by intros [? [=]]). by eexists.
Qed.

(** *** What the two [try] statements leave behind *)

Lemma try_metadata_outcome (p : Path) :
  outcome (try_metadata p) =
    match outcome (metadata_source p) with
    | Return m => Return (Some m)
    | Raise e => if is_NoMatchException e then Return None else Raise e
    end.
Proof.
  unfold try_metadata. run_M.
  destruct (metadata_source p) as [l [m|e]]; simpl; [done|].
  by destruct (is_NoMatchException e).
Qed.

Lemma try_filename_outcome (p : Path) :
  outcome (try_filename p) =
    match outcome (filename_source p) with
    | Return f => Return (Some f)
    | Raise e => if is_NoMatchException e then Return None else Raise e
    end.
Proof.
  unfold try_filename. run_M.
  destruct (filename_source p) as [l [f|e]]; simpl; [done|].
  by destruct (is_NoMatchException e).
Qed.

(** *** The reconciliation policy *)

(** The decision step either returns a timestamp or raises
    [NoMatchException], and raises exactly on "none, none" and on two
    timestamps of different dates. *)
Lemma reconcile_failed (p : Path) (md fd : option datetime) :
  failed (reconcile p md fd)
  ↔ (md = None ∧ fd = None)
    ∨ (∃ m f, md = Some m ∧ fd = Some f ∧ date m ≠ date f).
Proof.
  unfold failed, reconcile. run_M. destruct md as [m|], fd as [f|]; simpl.
  - repeat case_bool_decide; simpl; split;
      try (by intros [? [=]]); try (by intros [[[=] _]|(? & ? & ? & ? & ?)]).
    + intros [[[=] _]|(? & ? & [= <-] & [= <-] & ?)]. congruence.
    + intros [[[=] _]|(? & ? & [= <-] & [= <-] & ?)]. congruence.
    + intros _. right. by exists m, f.
    + intros _. by eexists.
  - split; [by intros [? [=]]|]. by intros [[[=] _]|(? & ? & _ & [=] & _)].
  - split; [by intros [? [=]]|]. by intros [[_ [=]]|(? & ? & [=] & _)].
  - split; [eauto|]. intros _. by eexists.
Qed.

Lemma reconcile_settles (p : Path) (md fd : option datetime) :
  failed (reconcile p md fd) ∨ ∃ d, succeeded (reconcile p md fd) d.
Proof.
  unfold failed, succeeded, reconcile. run_M.
  destruct md as [m|], fd as [f|]; simpl; repeat case_bool_decide; simpl; eauto.
Qed.

(** X27. The decision step of [get_snap_date] raises [NoMatchException]
    exactly when both optional timestamps are [None], or both are set with
    different calendar dates, and returns a timestamp in every other case.
    So [get_snap_date] raises [NoMatchException] exactly when both sources
    raise [NoMatchException], or both return timestamps of different
    calendar dates; where one source returns a timestamp and the other
    raises [NoMatchException], or both return timestamps of the same
    calendar date, it returns a timestamp. *)
Theorem get_snap_date_fails_exactly (p : Path) :
  (∀ md fd,
     (failed (reconcile p md fd)
      ↔ (md = None ∧ fd = None)
        ∨ (∃ m f, md = Some m ∧ fd = Some f ∧ date m ≠ date f))
     ∧ (failed (reconcile p md fd) ∨ ∃ d, succeeded (reconcile p md fd) d))
  ∧ (failed (get_snap_date p) ↔ terminal p)
  ∧ (∀ m, succeeded (metadata_source p) m → failed (filename_source p) →
          ∃ d, succeeded (get_snap_date p) d)
  ∧ (∀ f, failed (metadata_source p) → succeeded (filename_source p) f →
          ∃ d, succeeded (get_snap_date p) d)
  ∧ (∀ m f, succeeded (metadata_source p) m → succeeded (filename_source p) f →
            date m = date f → ∃ d, succeeded (get_snap_date p) d).
Proof.
  split.
  { intros md fd. split; [apply reconcile_failed|apply reconcile_settles]. }
  unfold terminal, failed, succeeded. rewrite get_snap_date_outcome.
  destruct (outcome (metadata_source p)) as [m|e],
           (outcome (filename_source p)) as [f|e'].
  - repeat split.
    + intros [msg Hmsg]. right. exists m, f. repeat split.
      repeat case_bool_decide; congruence.
    + intros [[[? [=]] _]|(m' & f' & [= <-] & [= <-] & Hne)].
      rewrite !bool_decide_eq_false_2; [by eexists|done|congruence].
    + intros ? _ [? [=]].
    + intros ? [? [=]].
    + intros m' f' [= <-] [= <-] Hd. exists m.
      rewrite (bool_decide_eq_true_2 _ Hd). by case_bool_decide.
  - repeat split.
    + intros [msg Hmsg]. destruct (is_NoMatchException e') eqn:He'; [done|].
      injection Hmsg as ->. done.
    + intros [[[? [=]] _]|(? & ? & _ & [=] & _)].
    + intros m' [= <-] [msg [= ->]]. by exists m.
    + intros ? [? [=]].
    + intros ? ? _ [=].
  - repeat split.
    + intros [msg Hmsg]. destruct (is_NoMatchException e) eqn:He; [done|].
      injection Hmsg as ->. done.
    + intros [[_ [? [=]]]|(? & ? & [=] & _)].
    + intros ? [=].
    + intros f' [msg [= ->]] [= <-]. by exists f.
    + intros ? ? [=].
  - repeat split.
    + intros [msg Hmsg]. left.
      destruct (is_NoMatchException e) eqn:He;
        [|injection Hmsg as ->; done].
      destruct (is_NoMatchException e') eqn:He';
        [|injection Hmsg as ->; done].
      apply is_NoMatchException_true in He as [? ->].
      apply is_NoMatchException_true in He' as [? ->]. eauto.
    + intros [[[? [= ->]] [? [= ->]]]|(? & ? & [=] & _)]. simpl. by eexists.
    + intros ? [=].
    + intros ? _ [=].
    + intros ? ? [=].
Qed.

(** X28. With exactly one of the two optional timestamps set, the decision
    step returns it. So when one source returns a timestamp and the other
    raises [NoMatchException], [get_snap_date] returns that timestamp. *)
Theorem get_snap_date_single_source (p : Path) (d : datetime) :
  succeeded (reconcile p (Some d) None) d
  ∧ succeeded (reconcile p None (Some d)) d
  ∧ (succeeded (metadata_source p) d → failed (filename_source p) →
     succeeded (get_snap_date p) d)
  ∧ (failed (metadata_source p) → succeeded (filename_source p) d →
     succeeded (get_snap_date p) d).
Proof.
  unfold succeeded. rewrite get_snap_date_outcome. repeat split.
  - by intros -> (e & -> & ->)%failed_outcome.
  - by intros (e & -> & ->)%failed_outcome ->.
Qed.

(** C6. On two timestamps of the same calendar date the decision step
    returns the metadata one, with one warning when they differ and none
    when they are equal. So when both sources succeed on the same calendar
    date, [get_snap_date] returns the metadata timestamp; it logs exactly
    one warning when the two timestamps differ, and none when they are
    equal. *)
Theorem get_snap_date_same_date (p : Path) (m f : datetime) :
  date m = date f →
  (succeeded (reconcile p (Some m) (Some f)) m
   ∧ warnings (reconcile p (Some m) (Some f))
     = if bool_decide (m = f) then [] else [loose_match_warning])
  ∧ (succeeded (metadata_source p) m → succeeded (filename_source p) f →
     succeeded (get_snap_date p) m
     ∧ (m ≠ f → warnings (get_snap_date p) = [loose_match_warning])
     ∧ (m = f → warnings (get_snap_date p) = [])).
Proof.
  intros Hd. split.
  - unfold succeeded, reconcile. run_M.
    rewrite (bool_decide_eq_true_2 _ Hd). by case_bool_decide.
  - intros Hm Hf. rewrite (get_snap_date_warnings p m f Hm Hf).
    unfold succeeded in *. rewrite get_snap_date_outcome, Hm, Hf.
    rewrite (bool_decide_eq_true_2 _ Hd).
    repeat split; intros; by case_bool_decide.
Qed.

(** C8. A path whose extension is neither an image nor a video extension
    makes the metadata source report no evidence, silently; the filename
    source is still asked and decides: its timestamp is returned when it
    has one, and the reconciliation fails when it has none. *)
Theorem get_snap_date_unsupported_extension (p : Path) :
  pystr.drop 1 (suffix p) ∉ IMAGE_EXTENSIONS →
  pystr.drop 1 (suffix p) ∉ VIDEO_EXTENSIONS →
  failed (metadata_source p)
  ∧ emitted (metadata_source p) = []
  ∧ (∀ f, succeeded (filename_source p) f → succeeded (get_snap_date p) f)
  ∧ (failed (filename_source p) → failed (get_snap_date p)).
Proof.
  intros Hi Hv.
  assert (metadata_source p = raise (NoMatchException "Unsupported extension !"))
    as Hmeta.
  { unfold metadata_source. by rewrite !bool_decide_eq_false_2. }
  unfold failed, succeeded. rewrite get_snap_date_outcome, Hmeta.
  repeat split.
  - by eexists.
  - by intros f ->.
  - intros [msg ->]. by eexists.
Qed.

End reconciler.

(** *** Worked examples *)

Lemma get_snap_date_fails_exactly_witness :
  failed (get_snap_date (G := example.globals) (L := example.libs)
            "/photos/IMG_20240306_143000.jpg")
  ∧ ∃ d, succeeded (get_snap_date (G := example.globals) (L := example.libs)
                      "/photos/holiday.jpg") d.
Proof.
  split.
  - apply (proj1 (proj2 (get_snap_date_fails_exactly
                           (G := example.globals) (L := example.libs)
                           "/photos/IMG_20240306_143000.jpg"))).
    right. exists example.snap, (mk_datetime 2024 3 6 14 30 0 0).
    split; [|split].
    + vm_compute. reflexivity.
    + vm_compute. reflexivity.
    + vm_compute. discriminate.
  - apply (proj1 (proj2 (proj2 (get_snap_date_fails_exactly
                                  (G := example.globals) (L := example.libs)
                                  "/photos/holiday.jpg"))) example.snap).
    + vm_compute. reflexivity.
    + exists "". vm_compute. reflexivity.
Defined.

Lemma get_snap_date_single_source_witness :
  succeeded (get_snap_date (G := example.globals) (L := example.libs)
               "/photos/holiday.jpg") example.snap
  ∧ succeeded (get_snap_date (G := example.globals) (L := example.libs)
                 "/photos/IMG_20240305_143045.png")
              (mk_datetime 2024 3 5 14 30 45 0).
Proof.
  split.
  - apply (proj1 (proj2 (proj2 (get_snap_date_single_source
                                  (G := example.globals) (L := example.libs)
                                  "/photos/holiday.jpg" example.snap)))).
    + vm_compute. reflexivity.
    + exists "". vm_compute. reflexivity.
  - apply (proj2 (proj2 (proj2 (get_snap_date_single_source
                                  (G := example.globals) (L := example.libs)
                                  "/photos/IMG_20240305_143045.png"
                                  (mk_datetime 2024 3 5 14 30 45 0))))).
    + exists "". vm_compute. reflexivity.
    + vm_compute. reflexivity.
Defined.

Lemma get_snap_date_same_date_witness :
  succeeded (get_snap_date (G := example.globals) (L := example.libs)
               "/photos/IMG_20240305_101500.jpg") example.snap
  ∧ warnings (get_snap_date (G := example.globals) (L := example.libs)
                "/photos/IMG_20240305_101500.jpg") = [loose_match_warning].
Proof.
  destruct (get_snap_date_same_date
              (G := example.globals) (L := example.libs)
              "/photos/IMG_20240305_101500.jpg"
              example.snap (mk_datetime 2024 3 5 10 15 0 0))
    as (_ & Hsnap).
  - reflexivity.
  - destruct Hsnap as (Hret & Hwarn & _).
    + vm_compute. reflexivity.
    + vm_compute. reflexivity.
    + split; [exact Hret|]. apply Hwarn. discriminate.
Defined.

Lemma get_snap_date_unsupported_extension_witness :
  succeeded (get_snap_date (G := example.globals) (L := example.libs)
               "/photos/notes_20240305_143000.txt") example.snap.
Proof.
  destruct (get_snap_date_unsupported_extension
              (G := example.globals) (L := example.libs)
              "/photos/notes_20240305_143000.txt")
    as (_ & _ & Hret & _).
  - apply (bool_decide_eq_false_1 _). vm_compute. reflexivity.
  - apply (bool_decide_eq_false_1 _). vm_compute. reflexivity.
  - apply Hret. vm_compute. reflexivity.
Defined.

(** C3. Errors of the sources do reach the caller of [get_snap_date]: a
    file name whose month reads 13 makes it raise [ValueError], and an image
    that cannot be decoded makes it raise the decoder's error. *)
Theorem get_snap_date_error_escapes :
  outcome (get_snap_date (G := example.globals) (L := example.libs)
             "/photos/IMG_20241305_101500.png") = Raise ValueError
  ∧ outcome (get_snap_date (G := example.globals) (L := example.libs)
               "/photos/broken.jpg")
    = Raise (OtherError "UnidentifiedImageError").
Proof. split; vm_compute; reflexivity. Qed.

End date_extract_facts.

(** ** picture_manip.py: the path assigner *)

Module picture_manip_facts.
Import picture picture_manip picture_facts.

Section assigner.
Context `{G : !Globals}.

(** *** The [while] loop *)

Lemma while_used_empty (fuel : nat) (p : Picture) (n : Z) :
  while_used (S fuel) ∅ p n = Some (n, get_output_path p n).
Proof. simpl. by rewrite bool_decide_eq_false_2 by apply not_elem_of_empty. Qed.

(** Only the membership of the candidates still to come matters. *)
Lemma while_used_agree (fuel : nat) (used used' : gset Path) (p : Picture)
    (n : Z) :
  (∀ k, n ≤ k → get_output_path p k ∈ used ↔ get_output_path p k ∈ used') →
  while_used fuel used p n = while_used fuel used' p n.
Proof.
  revert n. induction fuel as [|fuel IH]; intros n Hagree; [done|]. simpl.
  rewrite (bool_decide_ext _ _ (Hagree n (Z.le_refl n))).
  case_bool_decide; [|done]. apply IH. intros k Hk. apply Hagree. lia.
Qed.

Lemma while_used_more_fuel (fuel k : nat) (used : gset Path) (p : Picture)
    (n : Z) (r : Z * Path) :
  while_used fuel used p n = Some r →
  while_used (fuel + k) used p n = Some r.
Proof.
  revert n. induction fuel as [|fuel IH]; intros n; [done|]. simpl.
  case_bool_decide; [apply IH|done].
Qed.

(** The loop ends within as many tests as there are used paths, plus one:
    the candidates are pairwise distinct, so each failed test uses up one
    element of the set. *)
Lemma while_used_terminates (used : gset Path) (p : Picture) (n : Z) :
  is_Some (while_used (S (size used)) used p n).
Proof.
  remember (size used) as sz eqn:Hsz.
  assert (size used ≤ sz)%nat as Hle by lia. clear Hsz.
  revert used n Hle. induction sz as [|sz IH]; intros used n Hle.
  - assert (used = ∅) as ->.
    { apply leibniz_equiv, size_empty_inv. lia. }
    rewrite while_used_empty. by eexists.
  - change (while_used (S (S sz)) used p n)
      with (if bool_decide (get_output_path p n ∈ used)
            then while_used (S sz) used p (n + 1)
            else Some (n, get_output_path p n)).
    case_bool_decide as Hin; [|by eexists].
    rewrite (while_used_agree _ used (used ∖ {[get_output_path p n]})).
    + apply IH.
      rewrite size_difference by (by apply singleton_subseteq_l).
      rewrite size_singleton. lia.
    + intros k Hk. split; [|by intros []%elem_of_difference].
      intros Hk'. apply elem_of_difference. split; [done|].
      intros ->%elem_of_singleton%get_output_path_inj. lia.
Qed.


(** *** The generator *)

(** A turn leaves [used_paths] as it found it. *)
Lemma turn_used_paths (fuel : nat) (st st' : state) (p : Picture)
    (couple : Path * Path) :
  turn fuel st p = Some (st', couple) →
  used_paths (resume st') = used_paths st.
Proof.
  unfold turn. destruct (while_used _ _ _ _) as [[n out]|]; [|done].
  simpl. by intros [= <- _].
Qed.

(** From a state whose [used_paths] is empty, every turn takes the
    candidate of counter 1. *)
Lemma turn_empty (fuel : nat) (curr : option Picture) (l : list LogRecord)
    (p : Picture) :
  turn (S fuel) (mk_state ∅ curr l) p
  = Some (mk_state ∅ (Some p) (l ++ turn_records p 1),
          (source_path p, get_output_path p 1)).
Proof.
  unfold turn. cbn [used_paths logged]. rewrite while_used_empty. simpl.
  by rewrite <-app_assoc.
Qed.

Lemma for_pictures_empty (fuel : nat) (curr : option Picture)
    (l : list LogRecord) (pictures : list Picture) :
  for_pictures (S fuel) (mk_state ∅ curr l) pictures
  = Some ((λ p, (source_path p, get_output_path p 1)) <$> pictures,
          mk_state ∅ (if pictures is [] then curr else None)
            (l ++ concat ((λ p, turn_records p 1) <$> pictures))).
Proof.
  revert curr l. induction pictures as [|p pictures IH]; intros curr l.
  - simpl. by rewrite app_nil_r.
  - change (for_pictures (S fuel) (mk_state ∅ curr l) (p :: pictures))
      with ('(st, couple) ← turn (S fuel) (mk_state ∅ curr l) p;
            '(couples, st) ← for_pictures (S fuel) (resume st) pictures;
            Some (couple :: couples, st)).
    rewrite turn_empty. cbn [mbind option_bind]. unfold resume at 1.
    cbn [used_paths logged]. rewrite IH. cbn [mbind option_bind].
    rewrite !fmap_cons, concat_cons, <-app_assoc.
    by destruct pictures.
Qed.

(** C2. [used_paths] is empty from the first turn to the last, so every
    test of the loop condition fails at once: a turn that starts with the
    empty set takes the path of counter 1 and leaves the set empty; the run
    gives each picture the path of counter 1, logs [duplicate_count] 1 for
    each, and ends with [used_paths] still empty. *)
Theorem get_path_couples_counter_1 (fuel : nat) (pictures : list Picture) :
  (∀ curr l p,
     while_used (S fuel) ∅ p 1 = Some (1, get_output_path p 1)
     ∧ turn (S fuel) (mk_state ∅ curr l) p
       = Some (mk_state ∅ (Some p) (l ++ turn_records p 1),
               (source_path p, get_output_path p 1)))
  ∧ get_path_couples (S fuel) pictures
    = Some ((λ p, (source_path p, get_output_path p 1)) <$> pictures,
            mk_state ∅ None (concat ((λ p, turn_records p 1) <$> pictures))).
Proof.
  split.
  - intros curr l p. split; [apply while_used_empty|apply turn_empty].
  - unfold get_path_couples. rewrite for_pictures_empty.
    by destruct pictures.
Qed.

(** C10. The loop ends for every picture, whatever the set of used paths
    is: as many tests as the set has elements, plus one, are enough, and
    more do not change the result. So a run of [get_path_couples] yields a
    couple for every picture with as little as one test per picture. *)
Theorem get_path_couples_total :
  (∀ (used : gset Path) (p : Picture) (n : Z) (k : nat),
     is_Some (while_used (S (size used) + k) used p n))
  ∧ (∀ (fuel : nat) (pictures : list Picture),
       ∃ st, get_path_couples (S fuel) pictures
             = Some ((λ p, (source_path p, get_output_path p 1)) <$> pictures, st)).
Proof.
  split.
  - intros used p n k.
    destruct (while_used_terminates used p n) as [r Hr].
    exists r. by apply while_used_more_fuel.
  - intros fuel pictures. eexists. unfold get_path_couples.
    by rewrite for_pictures_empty.
Qed.

(** C1. Two pictures taken at the same second, with the same extension,
    are given the same output path: the run never adds to [used_paths]. *)
Theorem get_path_couples_collision (fuel : nat) :
  ∃ out st,
    get_path_couples (S fuel)
      [mk_Picture "/photos/a/IMG_0001.jpg" example.snap;
       mk_Picture "/photos/b/IMG_0001.jpg" example.snap]
    = Some ([("/photos/a/IMG_0001.jpg", out); ("/photos/b/IMG_0001.jpg", out)], st)
    ∧ used_paths st = ∅.
Proof.
  assert (get_output_path (mk_Picture "/photos/b/IMG_0001.jpg" example.snap) 1
          = get_output_path (mk_Picture "/photos/a/IMG_0001.jpg" example.snap) 1)
    as Hsame.
  { rewrite !get_output_path_eq. reflexivity. }
  exists (get_output_path (mk_Picture "/photos/a/IMG_0001.jpg" example.snap) 1).
  eexists. unfold get_path_couples. rewrite for_pictures_empty.
  split; [simpl; by rewrite Hsame|reflexivity].
Qed.

End assigner.

(** The same collision on the example installation, with the path both
    pictures are given. *)
Example get_path_couples_collision_example :
  fst <$> get_path_couples (G := example.globals) 1
            [mk_Picture "/photos/a/IMG_0001.jpg" example.snap;
             mk_Picture "/photos/b/IMG_0001.jpg" example.snap]
  = Some [("/photos/a/IMG_0001.jpg", "2024/3/2024-3-5-14h30_IMG1.jpg");
          ("/photos/b/IMG_0001.jpg", "2024/3/2024-3-5-14h30_IMG1.jpg")].
Proof. vm_compute. reflexivity. Qed.

End picture_manip_facts.

(** ** date_extract.py: the filename source *)

Module filename_facts.
Import date_extract terms date_extract_facts.

Section filename.
Context `{G : !Globals} `{L : !Libs}.

Lemma first_match_None (regexes : list string) (filename : string) :
  first_match regexes filename = None
  ↔ Forall (λ regex, re_search regex filename = None) regexes.
Proof.
  induction regexes as [|r regexes IH]; simpl.
  - split; [constructor|done].
  - destruct (re_search r filename) as [m|] eqn:Hr.
    + split; [done|]. intros [Hr' _]%Forall_cons. congruence.
    + rewrite IH. split; [by constructor|by intros [_ ?]%Forall_cons].
Qed.

Lemma first_match_app (before after : list string) (regex filename : string)
    (m : Match) :
  Forall (λ r, re_search r filename = None) before →
  re_search regex filename = Some m →
  first_match (before ++ regex :: after) filename = Some m.
Proof.
  intros Hbefore Hm. induction Hbefore as [|r before Hr _ IH]; simpl.
  - by rewrite Hm.
  - by rewrite Hr.
Qed.

(** The entries the comprehension makes: for a visited name the integer
    of its group, for any other name what was there before. *)
Lemma datetime_parts_lookup (m : Match) (keys : list string)
    (acc kw : gmap string Z) (k : string) :
  datetime_parts m keys acc = Return kw →
  kw !! k = if bool_decide (k ∈ keys)
            then match group_int m k with
                 | Some v => Some v
                 | None => acc !! k
                 end
            else acc !! k.
Proof.
  revert acc. induction keys as [|k' keys IH]; intros acc; simpl.
  - by intros [= <-].
  - unfold group. destruct (m !! k') as [g|] eqn:Hg; simpl; [|done].
    assert (∀ acc',
      datetime_parts m keys acc' = Return kw →
      (k ≠ k' → acc' !! k = acc !! k) →
      (k = k' → acc' !! k = match group_int m k with
                            | Some v => Some v
                            | None => acc !! k
                            end) →
      kw !! k = if bool_decide (k ∈ k' :: keys)
                then match group_int m k with
                     | Some v => Some v
                     | None => acc !! k
                     end
                else acc !! k) as Hstep.
    { intros acc' Hkw Hne Heq. rewrite (IH acc' Hkw).
      destruct (decide (k = k')) as [->|Hk].
      - rewrite (bool_decide_eq_true_2 (k' ∈ k' :: keys)) by (apply elem_of_cons; by left).
        rewrite Heq by done. case_bool_decide; [|done]. by destruct (group_int m k').
      - rewrite Hne by done.
        assert (k ∈ k' :: keys ↔ k ∈ keys) as Hin.
        { rewrite elem_of_cons. split; [by intros [?|?]|by right]. }
        by rewrite (bool_decide_ext _ _ Hin). }
    destruct g as [[|c s]|].
    + intros Hkw. apply (Hstep acc Hkw); [done|].
      intros ->. unfold group_int. by rewrite Hg.
    + destruct (int (String c s)) as [v|e] eqn:Hint; simpl; [|done].
      intros Hkw. apply (Hstep _ Hkw).
      * intros Hk. by rewrite lookup_insert_ne.
      * intros ->. rewrite lookup_insert_eq. unfold group_int.
        by rewrite Hg, Hint.
    + intros Hkw. apply (Hstep acc Hkw); [done|].
      intros ->. unfold group_int. by rewrite Hg.
Qed.

Lemma c_int_Return (v w : Z) : c_int v = Return w → w = v.
Proof. unfold c_int. case_match; naive_solver. Qed.

(** What the constructor returns, read back from its arguments. *)
Lemma datetime_new_Return (kw : gmap string Z) (d : datetime) :
  datetime_new kw = Return d →
  kw !! "year" = Some (year d) ∧ kw !! "month" = Some (month d)
  ∧ kw !! "day" = Some (day d)
  ∧ hour d = default 0 (kw !! "hour")
  ∧ minute d = default 0 (kw !! "minute")
  ∧ second d = default 0 (kw !! "second")
  ∧ valid_datetime d.
Proof.
  unfold datetime_new, required, optional.
  destruct (kw !! "year") as [y|]; [|done].
  destruct (c_int y) as [y'|] eqn:Hy; [|done]. apply c_int_Return in Hy as ->.
  destruct (kw !! "month") as [mo|]; [|done].
  destruct (c_int mo) as [mo'|] eqn:Hmo; [|done]. apply c_int_Return in Hmo as ->.
  destruct (kw !! "day") as [dd|]; [|done].
  destruct (c_int dd) as [dd'|] eqn:Hdd; [|done]. apply c_int_Return in Hdd as ->.
  cbn [mbind result_bind].
  assert (∀ o : option Z,
    match o with Some v => c_int v | None => Return 0 end
    = Return (default 0 o)
    ∨ ∃ e, match o with Some v => c_int v | None => Return 0 end = Raise e)
    as Hopt.
  { intros [v|]; [|by left]. destruct (c_int v) as [v'|e] eqn:Hv; [|eauto].
    apply c_int_Return in Hv as ->. by left. }
  destruct (Hopt (kw !! "hour")) as [->|[? ->]]; [|done].
  destruct (Hopt (kw !! "minute")) as [->|[? ->]]; [|done].
  destruct (Hopt (kw !! "second")) as [->|[? ->]]; [|done].
  cbn [mbind result_bind].
  destruct (_ && _) eqn:Hvalid; [|done]. intros [= <-].
  unfold valid_datetime. cbn [year month day hour minute second microsecond].
  repeat (apply andb_true_iff in Hvalid as [Hvalid ?]).
  repeat match goal with H : (_ <=? _) = true |- _ => apply Z.leb_le in H end.
  repeat split; done.
Qed.

Lemma get_date_from_filename_Some (filename : string) (m : Match) :
  first_match FILENAME_REGEXES filename = Some m →
  get_date_from_filename filename
  = lift (kw ← datetime_parts m FIELDS ∅; datetime_new kw).
Proof. intros Hm. unfold get_date_from_filename. by rewrite Hm. Qed.

Lemma get_date_from_filename_Return (filename : string) (m : Match)
    (d : datetime) :
  first_match FILENAME_REGEXES filename = Some m →
  succeeded (get_date_from_filename filename) d →
  ∃ kw, datetime_parts m FIELDS ∅ = Return kw ∧ datetime_new kw = Return d.
Proof.
  intros Hm. rewrite (get_date_from_filename_Some _ _ Hm).
  unfold succeeded, outcome, lift. cbn [snd].
  destruct (datetime_parts m FIELDS ∅) as [kw|e]; [|done]. eauto.
Qed.


(** X1. The filename source reports "no evidence" exactly when none of
    the patterns matches the file name; it logs nothing, whatever it
    does. *)
Theorem get_date_from_filename_fails_iff (filename : string) :
  (failed (get_date_from_filename filename)
   ↔ Forall (λ regex, re_search regex filename = None) FILENAME_REGEXES)
  ∧ emitted (get_date_from_filename filename) = [].
Proof.
  split.
  - rewrite <-first_match_None. split.
    + intros Hfail. destruct (first_match _ _) as [m|] eqn:Hm; [|done].
      by destruct (get_date_from_filename_matched filename m).
    + intros Hnone. unfold get_date_from_filename. rewrite Hnone. by eexists.
  - unfold get_date_from_filename. by destruct (first_match _ _).
Qed.

(** X2. The first pattern of the list that matches decides, and alone:
    the patterns after it are not tried, and the result is built from its
    match only. *)
Theorem first_pattern_wins (before after : list string)
    (regex filename : string) (m : Match) :
  FILENAME_REGEXES = before ++ regex :: after →
  Forall (λ r, re_search r filename = None) before →
  re_search regex filename = Some m →
  first_match FILENAME_REGEXES filename = Some m
  ∧ get_date_from_filename filename
    = lift (kw ← datetime_parts m FIELDS ∅; datetime_new kw).
Proof.
  intros Hlist Hbefore Hm.
  pose proof (first_match_app before after regex filename m Hbefore Hm) as Hfirst.
  rewrite <-Hlist in Hfirst.
  split; [done|]. by apply get_date_from_filename_Some.
Qed.

(** The fields of a returned timestamp, read from the match. *)
Lemma filename_fields_of_match (filename : string) (m : Match)
    (d : datetime) :
  first_match FILENAME_REGEXES filename = Some m →
  succeeded (get_date_from_filename filename) d →
  group_int m "year" = Some (year d)
  ∧ group_int m "month" = Some (month d)
  ∧ group_int m "day" = Some (day d)
  ∧ hour d = default 0 (group_int m "hour")
  ∧ minute d = default 0 (group_int m "minute")
  ∧ second d = default 0 (group_int m "second").
Proof.
  intros Hm Hd.
  destruct (get_date_from_filename_Return _ _ _ Hm Hd) as (kw & Hkw & Hnew).
  apply datetime_new_Return in Hnew as (Hy & Hmo & Hdd & Hh & Hmi & Hs & _).
  assert (∀ k, k ∈ FIELDS → kw !! k = group_int m k) as Hlook.
  { intros k Hk. rewrite (datetime_parts_lookup _ _ _ _ k Hkw).
    rewrite bool_decide_eq_true_2 by done. rewrite lookup_empty.
    by destruct (group_int m k). }
  assert (∀ k, k ∈ FIELDS ↔ bool_decide (k ∈ FIELDS) = true) as Hdec.
  { intros k. by rewrite bool_decide_eq_true. }
  rewrite <-!Hlook by (by apply Hdec). done.
Qed.

(** X3. A timestamp the filename source returns holds the integers of the
    groups of the match: year, month and day are those of the three date
    groups, and hour, minute and second are those of the time groups, or 0
    for a time group that matched no text. *)
Theorem get_date_from_filename_fields (filename : string) (m : Match)
    (d : datetime) :
  first_match FILENAME_REGEXES filename = Some m →
  succeeded (get_date_from_filename filename) d →
  group_int m "year" = Some (year d)
  ∧ group_int m "month" = Some (month d)
  ∧ group_int m "day" = Some (day d)
  ∧ hour d = default 0 (group_int m "hour")
  ∧ minute d = default 0 (group_int m "minute")
  ∧ second d = default 0 (group_int m "second").
Proof. apply filename_fields_of_match. Qed.

(** X4. A timestamp the filename source returns is a date of the calendar
    and a time of the day: month 1 to 12, day within the month (February 29
    in leap years only), hour below 24, minute and second below 60, and no
    microseconds. *)
Theorem get_date_from_filename_valid (filename : string) (d : datetime) :
  succeeded (get_date_from_filename filename) d → valid_datetime d.
Proof.
  intros Hd. destruct (first_match FILENAME_REGEXES filename) as [m|] eqn:Hm.
  - destruct (get_date_from_filename_Return _ _ _ Hm Hd) as (kw & _ & Hnew).
    by apply datetime_new_Return in Hnew as (_ & _ & _ & _ & _ & _ & ?).
  - unfold succeeded, get_date_from_filename in Hd. by rewrite Hm in Hd.
Qed.

(** X5. When the pattern that matched left its year, month or day group
    without text, the filename source neither returns a timestamp nor
    reports "no evidence": it raises a built-in error. *)
Theorem get_date_from_filename_required (filename : string) (m : Match)
    (k : string) :
  first_match FILENAME_REGEXES filename = Some m →
  k ∈ ["year"; "month"; "day"] →
  m !! k = Some None ∨ m !! k = Some (Some "") →
  ∃ e, outcome (get_date_from_filename filename) = Raise e
       ∧ is_NoMatchException e = false.
Proof.
  intros Hm Hk Hgroup.
  assert (group_int m k = None) as Hnone.
  { unfold group_int. by destruct Hgroup as [-> | ->]. }
  destruct (outcome (get_date_from_filename filename)) as [d|e] eqn:Hout.
  - destruct (filename_fields_of_match filename m d Hm Hout)
      as (Hy & Hmo & Hdd & _).
    repeat (apply elem_of_cons in Hk as [->|Hk]; [congruence|]).
    by apply elem_of_nil in Hk.
  - exists e. split; [done|]. destruct (is_NoMatchException e) eqn:He; [|done].
    apply is_NoMatchException_true in He as [msg ->].
    destruct (get_date_from_filename_matched filename m Hm). by exists msg.
Qed.


End filename.
End filename_facts.

(** ** date_extract.py: the metadata sources *)

Module metadata_facts.
Import date_extract terms date_extract_facts.

Lemma dict_set_elem {V} (k k' : string) (v v' : V) (d : list (string * V)) :
  (k', v') ∈ dict_set k v d → (k', v') = (k, v) ∨ (k', v') ∈ d.
Proof.
  induction d as [|[k0 v0] d IH]; simpl.
  - intros ?%list_elem_of_singleton. by left.
  - destruct (decide (k0 = k)) as [->|Hk].
    + intros [?|?]%elem_of_cons; [by left|]. right. by apply elem_of_cons; right.
    + intros [?|Hin]%elem_of_cons; [right; by apply elem_of_cons; left|].
      destruct (IH Hin) as [?|?]; [by left|]. right. by apply elem_of_cons; right.
Qed.

Lemma dict_set_keys {V} (k : string) (v : V) (d : list (string * V)) :
  (dict_set k v d).*1 = if bool_decide (k ∈ d.*1) then d.*1 else d.*1 ++ [k].
Proof.
  induction d as [|[k0 v0] d IH]; simpl; [done|].
  destruct (decide (k0 = k)) as [->|Hk].
  - by rewrite bool_decide_eq_true_2 by (apply elem_of_cons; by left).
  - cbn [fmap list_fmap fst]. rewrite IH.
    assert (k ∈ k0 :: d.*1 ↔ k ∈ d.*1) as Hin.
    { rewrite elem_of_cons. split; [by intros [?|?]|by right]. }
    rewrite (bool_decide_ext _ _ Hin). by case_bool_decide.
Qed.

Lemma dict_set_NoDup {V} (k : string) (v : V) (d : list (string * V)) :
  NoDup d.*1 → NoDup (dict_set k v d).*1.
Proof.
  intros Hd. rewrite dict_set_keys. case_bool_decide as Hk; [done|].
  apply NoDup_app. split; [done|]. split; [|apply NoDup_singleton].
  intros x Hx ->%list_elem_of_singleton. done.
Qed.

Lemma dict_set_key {V} (k : string) (v : V) (d : list (string * V)) :
  k ∈ (dict_set k v d).*1.
Proof.
  rewrite dict_set_keys. case_bool_decide; [done|].
  apply elem_of_app. right. by apply list_elem_of_singleton.
Qed.

Lemma dict_set_keeps {V} (k k' : string) (v : V) (d : list (string * V)) :
  k' ∈ d.*1 → k' ∈ (dict_set k v d).*1.
Proof.
  intros Hk'. rewrite dict_set_keys. case_bool_decide; [done|].
  apply elem_of_app. by left.
Qed.

Section metadata.
Context `{G : !Globals} `{L : !Libs}.

(** One step of the comprehension that builds [DATETIME_TAGS]. *)
Lemma DATETIME_TAGS_fold (tags : list (Z * string)) (d : list (string * Z)) :
  let wanted := ["DateTime"; "DateTimeOriginal"; "DateTimeDigitized"] in
  let step := λ (d : list (string * Z)) '(id, name),
    if bool_decide (name ∈ wanted) then dict_set name id d else d in
  NoDup d.*1 →
  (∀ name id, (name, id) ∈ d → name ∈ wanted ∧ (id, name) ∈ ExifTags_TAGS) →
  (∀ id name, (id, name) ∈ tags → (id, name) ∈ ExifTags_TAGS) →
  NoDup (foldl step d tags).*1
  ∧ (∀ name id, (name, id) ∈ foldl step d tags →
                name ∈ wanted ∧ (id, name) ∈ ExifTags_TAGS)
  ∧ (∀ name, (name ∈ d.*1 ∨ (name ∈ wanted ∧ name ∈ tags.*2)) →
             name ∈ (foldl step d tags).*1).
Proof.
  intros wanted step. revert d.
  induction tags as [|[id name] tags IH]; intros d Hnd Hd Htags.
  - simpl. split; [done|]. split; [exact Hd|].
    intros name [?|[_ Hn]]; [done|by apply elem_of_nil in Hn].
  - cbn [foldl]. assert (∀ i n, (i, n) ∈ tags → (i, n) ∈ ExifTags_TAGS) as Htl.
    { intros i n Hin. apply Htags. by apply elem_of_cons; right. }
    assert ((id, name) ∈ ExifTags_TAGS) as Hhd.
    { apply Htags. by apply elem_of_cons; left. }
    destruct (IH (step d (id, name))) as (IH1 & IH2 & IH3); [| |done|].
    + unfold step. case_bool_decide; [by apply dict_set_NoDup|done].
    + unfold step. case_bool_decide as Hw; [|done].
      intros n i [[= -> ->]|?]%dict_set_elem; [done|by apply Hd].
    + split; [done|]. split; [exact IH2|].
      intros n [Hn|[Hw Hn]]; apply IH3.
      * left. unfold step. case_bool_decide; [by apply dict_set_keeps|done].
      * cbn [fmap list_fmap snd] in Hn. apply elem_of_cons in Hn as [->|Hn].
        -- left. unfold step. rewrite bool_decide_eq_true_2 by done.
           apply dict_set_key.
        -- by right.
Qed.

(** X7. [DATETIME_TAGS] has one entry for each of the names [DateTime],
    [DateTimeOriginal] and [DateTimeDigitized] that the table of the imaging
    library lists, no entry twice and no other entry, and each entry gives
    a tag number the table gives for its name. *)
Theorem DATETIME_TAGS_entries :
  let wanted := ["DateTime"; "DateTimeOriginal"; "DateTimeDigitized"] in
  NoDup (DATETIME_TAGS.*1)
  ∧ (∀ name id, (name, id) ∈ DATETIME_TAGS →
                name ∈ wanted ∧ (id, name) ∈ ExifTags_TAGS)
  ∧ (∀ id name, (id, name) ∈ ExifTags_TAGS → name ∈ wanted →
                name ∈ DATETIME_TAGS.*1).
Proof.
  intros wanted.
  destruct (DATETIME_TAGS_fold ExifTags_TAGS []) as (H1 & H2 & H3).
  - constructor.
  - by intros ? ? ?%elem_of_nil.
  - done.
  - split; [done|]. split; [exact H2|].
    intros id name Hin Hw. apply H3. right. split; [done|].
    apply list_elem_of_fmap. by exists (id, name).
Qed.

(** *** The image source *)

Lemma foldl_py_or_keeps (exif : Exif) (tags : list Z) (c : ascii) (s : string) :
  foldl (λ datetime_str tag_id, py_or datetime_str (exif !! tag_id))
        (Some (String c s)) tags
  = Some (String c s).
Proof. induction tags as [|t tags IH]; [done|]. simpl. exact IH. Qed.

Lemma foldl_py_or_first (exif : Exif) (before after : list Z) (t : Z)
    (c : ascii) (s : string) (acc : option string) :
  falsy acc → Forall (λ t', falsy (exif !! t')) before →
  exif !! t = Some (String c s) →
  foldl (λ datetime_str tag_id, py_or datetime_str (exif !! tag_id))
        acc (before ++ t :: after)
  = Some (String c s).
Proof.
  intros Hacc Hbefore Ht. revert acc Hacc.
  induction Hbefore as [|t' before Ht' _ IH]; intros acc Hacc.
  - simpl. assert (py_or acc (exif !! t) = Some (String c s)) as ->.
    { rewrite Ht. by destruct Hacc as [-> | ->]. }
    apply foldl_py_or_keeps.
  - simpl. apply IH.
    destruct Hacc as [-> | ->]; simpl; exact Ht'.
Qed.

Lemma foldl_py_or_absent (exif : Exif) (tags : list Z) :
  Forall (λ t, exif !! t = None) tags →
  foldl (λ datetime_str tag_id, py_or datetime_str (exif !! tag_id)) None tags
  = None.
Proof.
  induction 1 as [|t tags Ht _ IH]; [done|]. simpl. by rewrite Ht.
Qed.


(** X9. The image source reads the tags in the order of [DATETIME_TAGS]
    and parses the first value that is not empty: the tags after it do not
    matter. *)
Theorem get_date_from_exif_first_tag (image : Image) (exif : Exif)
    (before after : list Z) (t : Z) (s : string) :
  getexif image = Some exif →
  DATETIME_TAGS.*2 = before ++ t :: after →
  Forall (λ t', falsy (exif !! t')) before →
  exif !! t = Some s → s ≠ "" →
  get_date_from_exif image
  = match strptime s "%Y:%m:%d %H:%M:%S" with
    | Some d => ([], Return d)
    | None =>
        ([mk_LogRecord WARNING
            "Invalid date found in EXIF data ! (%s). Ignoring..." [ArgStr s]],
         Raise (NoMatchException ""))
    end.
Proof.
  intros Hexif Htags Hbefore Ht Hs. unfold get_date_from_exif.
  rewrite Hexif, Htags. destruct s as [|c s]; [done|].
  rewrite (foldl_py_or_first exif before after t c s None); [|by left|done|done].
  by destruct (strptime _ _).
Qed.

(** X10. An image without a metadata table, or whose table has none of the
    tags of [DATETIME_TAGS], is "no evidence", without a warning. *)
Theorem get_date_from_exif_absent (image : Image) :
  (getexif image = None
   ∨ ∃ exif, getexif image = Some exif
             ∧ Forall (λ t, exif !! t = None) (DATETIME_TAGS.*2)) →
  get_date_from_exif image = ([], Raise (NoMatchException "")).
Proof.
  unfold get_date_from_exif. intros [->|(exif & -> & Habsent)]; [done|].
  by rewrite foldl_py_or_absent.
Qed.

End metadata.
End metadata_facts.

(** *** The video source *)

Module video_facts.
Import date_extract terms date_extract_facts pystr_facts.

Section video.
Context `{G : !Globals} `{L : !Libs}.

Lemma get_date_from_video_metadata_parsed (path : Path) (j : json) :
  ffmpeg_imported = true →
  probe_creation_time path = Return j →
  get_date_from_video_metadata path
  = match split_dot_0 j with
    | Return s =>
        match strptime s "%Y-%m-%dT%H:%M:%S" with
        | Some d => ([], Return d)
        | None =>
            ([mk_LogRecord WARNING
                "Invalid date found in video metadata ! (%s). Ignoring..."
                [ArgStr s]],
             Raise (NoMatchException ""))
        end
    | Raise e => ([], Raise e)
    end.
Proof.
  intros Himp Hprobe. unfold get_date_from_video_metadata. rewrite Himp, Hprobe.
  cbn [negb]. run_M. cbn [fst snd app].
  destruct (split_dot_0 j) as [s|e]; cbn [fst snd app]; [|done].
  by destruct (strptime s _).
Qed.

(** What the video source does with an exception of its [try] block. *)
Lemma video_probe_raises (path : Path) (e : exn) :
  ffmpeg_imported = true →
  probe_creation_time path = Raise e →
  get_date_from_video_metadata path
  = if bool_decide (e ∈ [KeyError; JSONDecodeError; FFmpegError])
    then ([mk_LogRecord ERROR
             "Failed to get video metadata ! for %s. Error: %s"
             [ArgPath path; ArgExn e]],
          Raise (NoMatchException ""))
    else ([], Raise e).
Proof.
  intros Himp Hprobe. unfold get_date_from_video_metadata. rewrite Himp, Hprobe.
  cbn [negb]. run_M. cbn [fst snd app]. by case_bool_decide.
Qed.

(** X11. When the probe, the decoding of its output or the look-up of
    the creation time raises [KeyError], [JSONDecodeError] or [FFmpegError],
    the video source logs one error, naming the path and the exception, and
    reports "no evidence"; an exception of any other class leaves the
    source as it is, unlogged. *)
Theorem get_date_from_video_metadata_probe_error (path : Path) (e : exn) :
  ffmpeg_imported = true →
  probe_creation_time path = Raise e →
  get_date_from_video_metadata path
  = if bool_decide (e ∈ [KeyError; JSONDecodeError; FFmpegError])
    then ([mk_LogRecord ERROR
             "Failed to get video metadata ! for %s. Error: %s"
             [ArgPath path; ArgExn e]],
          Raise (NoMatchException ""))
    else ([], Raise e).
Proof. apply video_probe_raises. Qed.

(** X12. The video source parses the creation time up to its first dot:
    a fractional part, and anything else after that dot, is dropped. *)
Theorem get_date_from_video_metadata_fraction (path : Path)
    (s rest : string) :
  ffmpeg_imported = true →
  probe_creation_time path = Return (JString (s +:+ "." +:+ rest)) →
  pystr.all (pystr.isnt ".") s = true →
  get_date_from_video_metadata path
  = match strptime s "%Y-%m-%dT%H:%M:%S" with
    | Some d => ([], Return d)
    | None =>
        ([mk_LogRecord WARNING
            "Invalid date found in video metadata ! (%s). Ignoring..."
            [ArgStr s]],
         Raise (NoMatchException ""))
    end.
Proof.
  intros Himp Hprobe Hs.
  rewrite (get_date_from_video_metadata_parsed path _ Himp Hprobe).
  unfold split_dot_0.
  change ("." +:+ rest) with (String "."%char rest).
  by rewrite split_app.
Qed.

(** X13. A probe output whose list of streams is empty makes the video
    source raise [IndexError]: that class is not among those it converts
    to "no evidence". *)
Theorem get_date_from_video_metadata_no_stream (path : Path)
    (out : string) (media : json) :
  ffmpeg_imported = true →
  ffprobe_execute path = Return out →
  json_loads out = Return media →
  getitem media "streams" = Return (JArray []) →
  get_date_from_video_metadata path = ([], Raise IndexError).
Proof.
  intros Himp Hout Hmedia Hstreams.
  rewrite (video_probe_raises path IndexError Himp).
  - done.
  - unfold probe_creation_time. rewrite Hout. cbn [mbind result_bind].
    rewrite Hmedia. cbn [mbind result_bind]. by rewrite Hstreams.
Qed.

End video.
End video_facts.

(** ** date_extract.py: more on [get_snap_date] *)

Module snap_date_facts.
Import date_extract terms date_extract_facts.

Section snap_date.
Context `{G : !Globals} `{L : !Libs}.

(** X14. A timestamp that [get_snap_date] returns is one a source
    returned: the one of the metadata source whenever that source succeeded,
    the one of the filename source only when the metadata source reported
    "no evidence". *)
Theorem get_snap_date_provenance (p : Path) (d : datetime) :
  succeeded (get_snap_date p) d →
  succeeded (metadata_source p) d
  ∨ (failed (metadata_source p) ∧ succeeded (filename_source p) d).
Proof.
  unfold succeeded, failed. rewrite get_snap_date_outcome.
  destruct (outcome (metadata_source p)) as [m|e],
           (outcome (filename_source p)) as [f|e'].
  - repeat case_bool_decide; [| |done]; intros [= <-]; by left.
  - destruct (is_NoMatchException e'); [|done]. intros [= <-]. by left.
  - destruct (is_NoMatchException e) eqn:He; [|done]. intros [= <-].
    apply is_NoMatchException_true in He as [msg ->]. right. eauto.
  - by destruct (is_NoMatchException e), (is_NoMatchException e').
Qed.

(** X15. When the metadata source raises an exception that is not
    [NoMatchException], [get_snap_date] ends there: it raises that
    exception, has logged what the source logged and nothing more, and the
    filename source is not asked. *)
Theorem get_snap_date_metadata_error (p : Path) (e : exn) :
  outcome (metadata_source p) = Raise e →
  is_NoMatchException e = false →
  get_snap_date p = metadata_source p.
Proof.
  unfold get_snap_date, try_metadata. run_M.
  destruct (metadata_source p) as [l r]. cbn [fst snd].
  intros -> He. rewrite He. cbn [fst snd]. done.
Qed.

(** X16. [get_snap_date] compares the extension as it is written: when the
    extension lists hold no capital letter, a path whose extension holds one
    is an unsupported extension for the metadata source. *)
Theorem metadata_source_case_sensitive (p : Path) :
  Forall (λ x, pystr.all (λ c, negb (pystr.is_upper c)) x = true)
         (IMAGE_EXTENSIONS ++ VIDEO_EXTENSIONS) →
  pystr.all (λ c, negb (pystr.is_upper c)) (pystr.drop 1 (suffix p)) = false →
  metadata_source p = raise (NoMatchException "Unsupported extension !").
Proof.
  intros Hlower Hcap. rewrite Forall_forall in Hlower.
  unfold metadata_source. rewrite !bool_decide_eq_false_2; [done| |].
  - intros Hin. rewrite Hlower in Hcap; [done|]. apply elem_of_app. by right.
  - intros Hin. rewrite Hlower in Hcap; [done|]. apply elem_of_app. by left.
Qed.

End snap_date.
End snap_date_facts.

(** ** picture.py: more on extensions and output paths *)

Module picture_more_facts.
Import pystr pystr_facts pretty_facts pathlib pathlib_facts picture picture_facts.

Lemma drop_app_length (a b : string) : drop (String.length a) (a +:+ b) = b.
Proof. induction a as [|x a IH]; [by destruct b|]. by rewrite app_cons. Qed.

Lemma rfind_from_none (c : ascii) (s : string) (i found : Z) :
  all (isnt c) s = true → rfind_from c s i found = found.
Proof.
  revert i found. induction s as [|x s IH]; intros i found; [done|]. simpl.
  intros [Hx Hs]%andb_true_iff. apply bool_decide_eq_true in Hx.
  rewrite decide_False by done. by apply IH.
Qed.

Lemma rfind_from_app (c : ascii) (a b : string) (i found : Z) :
  rfind_from c (a +:+ String c b) i found
  = rfind_from c b (i + len a + 1) (i + len a).
Proof.
  revert i found. induction a as [|x a IH]; intros i found.
  - rewrite app_nil_l. simpl. rewrite decide_True by done.
    unfold len. simpl. by rewrite Z.add_0_r.
  - rewrite app_cons. simpl. rewrite IH. unfold len. simpl String.length.
    f_equal; lia.
Qed.

(** The index [rfind] gives is that of the last occurrence. *)
Lemma rfind_last (c : ascii) (a b : string) :
  all (isnt c) b = true → rfind c (a +:+ String c b) = len a.
Proof.
  intros Hb. unfold rfind. rewrite rfind_from_app.
  by rewrite rfind_from_none.
Qed.

Lemma last_occurrence (c : ascii) (s : string) :
  all (isnt c) s = true
  ∨ ∃ a b, s = a +:+ String c b ∧ all (isnt c) b = true.
Proof.
  induction s as [|x s IH]; [by left|].
  destruct IH as [Hs|(a & b & -> & Hb)].
  - destruct (decide (x = c)) as [->|Hx].
    + right. by exists "", s.
    + left. simpl. rewrite Hs, andb_true_r. by apply bool_decide_eq_true.
  - right. by exists (String x a), b.
Qed.

(** The suffix of a path whose name is [a.b], with no dot in [b]. *)
Lemma suffix_of_name (p : Path) (a b : string) :
  name p = a +:+ String "."%char b → all (isnt ".") b = true →
  suffix p = if bool_decide (a ≠ "" ∧ b ≠ "") then String "."%char b else "".
Proof.
  intros Hname Hb. unfold suffix. rewrite Hname, rfind_last by done.
  unfold len. rewrite length_app. simpl String.length.
  rewrite Nat2Z.id, drop_app_length.
  assert (bool_decide (a ≠ "" ∧ b ≠ "")
          = bool_decide (0 < Z.of_nat (String.length a))
            && bool_decide (Z.of_nat (String.length a)
                            < Z.of_nat (String.length a + S (String.length b)) - 1))
    as ->; [|done].
  destruct a as [|x a], b as [|y b]; simpl String.length;
    repeat case_bool_decide; simpl; try done; try lia.
  all: exfalso;
    repeat match goal with
           | H : _ ∧ _ |- _ => destruct H
           | H : ¬ (_ ∧ _) |- _ => apply H; split; done
           end; done.
Qed.

Lemma suffix_shape (p : Path) :
  suffix p = ""
  ∨ ∃ b, suffix p = String "."%char b ∧ all (isnt ".") b = true ∧ b ≠ "".
Proof.
  destruct (last_occurrence "." (name p)) as [Hnone|(a & b & Hname & Hb)].
  - left. unfold suffix, rfind. rewrite rfind_from_none by done.
    by rewrite bool_decide_eq_false_2 by lia.
  - rewrite (suffix_of_name p a b Hname Hb). case_bool_decide as Hab; [|by left].
    right. exists b. by destruct Hab.
Qed.

Lemma lower_char_isnt_dot (c : ascii) :
  isnt "." c = true → isnt "." (lower_char c) = true.
Proof. by destruct c as [[] [] [] [] [] [] [] []]. Qed.

Lemma lower_char_idem (c : ascii) : lower_char (lower_char c) = lower_char c.
Proof. by destruct c as [[] [] [] [] [] [] [] []]. Qed.

Lemma lower_idem (s : string) : lower (lower s) = lower s.
Proof.
  induction s as [|c s IH]; [done|]. simpl. by rewrite lower_char_idem, IH.
Qed.

Lemma lower_drop (n : nat) (s : string) : lower (drop n s) = drop n (lower s).
Proof. revert s. induction n as [|n IH]; intros [|c s]; simpl; auto. Qed.

Lemma extension_no_dot (p : Picture) : all (isnt ".") (extension p) = true.
Proof.
  unfold extension. repeat case_bool_decide; [done..|].
  destruct (suffix_shape (source_path p)) as [->|(b & -> & Hb & _)]; [done|].
  simpl. by apply all_lower; [apply lower_char_isnt_dot|].
Qed.

Lemma extension_lower (p : Picture) : lower (extension p) = extension p.
Proof.
  unfold extension. repeat case_bool_decide; [done..|].
  by rewrite lower_drop, lower_idem.
Qed.

Lemma extension_not_raw (p : Picture) :
  extension p ≠ "jpeg" ∧ extension p ≠ "tiff".
Proof. unfold extension. split; by repeat case_bool_decide. Qed.

(** X17. The canonical extension is never [jpeg] nor [tiff], and holds no
    dot and no slash. *)
Theorem extension_normal_form (p : Picture) :
  extension p ≠ "jpeg" ∧ extension p ≠ "tiff"
  ∧ all (isnt ".") (extension p) = true
  ∧ all (isnt "/") (extension p) = true.
Proof.
  split; [|split; [|split]].
  - unfold extension. by repeat case_bool_decide.
  - unfold extension. by repeat case_bool_decide.
  - apply extension_no_dot.
  - apply extension_no_slash.
Qed.

Section output_path.
Context `{G : !Globals}.

Lemma get_output_path_split (p : Picture) (n : Z) :
  split "/" (get_output_path p n)
  = [pretty (year (snap_date p)); pretty (month (snap_date p)); filename p n].
Proof.
  rewrite get_output_path_eq.
  change (pretty (year (snap_date p)) +:+ "/"
          +:+ pretty (month (snap_date p)) +:+ "/" +:+ filename p n)
    with (join "/" [pretty (year (snap_date p));
                    pretty (month (snap_date p)); filename p n]).
  apply split_join; [done|].
  repeat constructor;
    try apply (pretty_component _); apply filename_component.
Qed.

Lemma get_output_path_name (p : Picture) (n : Z) :
  name (get_output_path p n) = filename p n.
Proof.
  unfold name. rewrite get_output_path_split. simpl.
  rewrite bool_decide_eq_false_2; [done|].
  by destruct (filename_component p n) as (_ & _ & ?).
Qed.

(** The file name is a stem that is not empty, a dot, and the extension. *)
Lemma filename_stem (p : Picture) (n : Z) :
  ∃ stem, stem ≠ "" ∧ filename p n = stem +:+ String "."%char (extension p).
Proof.
  eexists (ymdhms_str (snap_date p) +:+ "_"
           +:+ (if is_video p then "VID" else "IMG") +:+ pretty n).
  split.
  - intros H. apply (f_equal String.length) in H.
    rewrite !length_app in H. simpl in H. lia.
  - unfold filename. by rewrite !app_assoc.
Qed.

Lemma get_output_path_suffix (p : Picture) (n : Z) :
  suffix (get_output_path p n)
  = if bool_decide (extension p = "") then ""
    else String "."%char (extension p).
Proof.
  destruct (filename_stem p n) as (stem & Hstem & Hfile).
  rewrite (suffix_of_name _ stem (extension p));
    [|by rewrite get_output_path_name|apply extension_no_dot].
  destruct (decide (extension p = "")) as [He|He].
  - rewrite (bool_decide_eq_true_2 _ He).
    rewrite bool_decide_eq_false_2; [done|]. by intros [_ ?].
  - rewrite (bool_decide_eq_false_2 _ He). by rewrite bool_decide_eq_true_2.
Qed.

Lemma get_output_path_extension (p : Picture) (n : Z) (d : datetime) :
  extension (mk_Picture (get_output_path p n) d) = extension p.
Proof.
  destruct (extension_not_raw p) as [Hjpeg Htiff].
  unfold extension at 1. cbn [source_path]. rewrite get_output_path_suffix.
  destruct (decide (extension p = "")) as [He|He].
  - rewrite (bool_decide_eq_true_2 _ He). by rewrite He.
  - rewrite (bool_decide_eq_false_2 _ He).
    change (drop 1 (lower (String "."%char (extension p))))
      with (lower (extension p)).
    rewrite extension_lower. by rewrite !bool_decide_eq_false_2.
Qed.

(** X18. The output path keeps the extension: its suffix is the dot and
    the canonical extension of the picture (or nothing when that is empty),
    and read back from the output path the canonical extension is the
    same. *)
Theorem get_output_path_keeps_extension (p : Picture) (n : Z) (d : datetime) :
  suffix (get_output_path p n)
  = (if bool_decide (extension p = "") then ""
     else "." +:+ extension p)
  ∧ extension (mk_Picture (get_output_path p n) d) = extension p.
Proof.
  split; [apply get_output_path_suffix|apply get_output_path_extension].
Qed.

(** X19. The output path is relative and has three components: the year,
    the month, and the file name; its name is the file name. *)
Theorem get_output_path_components (p : Picture) (n : Z) :
  split "/" (get_output_path p n)
  = [pretty (year (snap_date p)); pretty (month (snap_date p)); filename p n]
  ∧ name (get_output_path p n) = filename p n
  ∧ startswith "/" (get_output_path p n) = false.
Proof.
  split; [apply get_output_path_split|]. split; [apply get_output_path_name|].
  rewrite get_output_path_eq. apply component_head, pretty_component.
Qed.

(** X20. For one picture, different counters give different output
    paths. *)
Theorem get_output_path_counters (p : Picture) (n n' : Z) :
  n ≠ n' → get_output_path p n ≠ get_output_path p n'.
Proof. intros Hne Heq. by apply get_output_path_inj in Heq. Qed.

(** X21. Pictures of different canonical extensions never share an output
    path, whatever their dates and counters: so an image and a video never
    do. *)
Theorem get_output_path_extensions (p q : Picture) (n k : Z) :
  extension p ≠ extension q → get_output_path p n ≠ get_output_path q k.
Proof.
  intros Hne Heq. apply Hne.
  rewrite <-(get_output_path_extension p n (snap_date p)).
  rewrite <-(get_output_path_extension q k (snap_date p)).
  by rewrite Heq.
Qed.

End output_path.
End picture_more_facts.

(** ** picture_manip.py: the loop on arbitrary sets, and [collect_pictures] *)

Module collect_facts.
Import picture date_extract date_extract_facts picture_manip collect
  collect_terms picture_facts picture_manip_facts.

Section loop.
Context `{G : !Globals}.



End loop.

Section collect.
Context `{G : !Globals} `{L : !Libs}.
Variable SUPPORTED_EXTENSIONS : list string.

#[local] Abbreviation collect_pictures :=
  (collect.collect_pictures SUPPORTED_EXTENSIONS).
#[local] Abbreviation supported := (collect_terms.supported SUPPORTED_EXTENSIONS).
#[local] Abbreviation picture_of := (collect_terms.picture_of SUPPORTED_EXTENSIONS).
#[local] Abbreviation breaks := (collect_terms.breaks SUPPORTED_EXTENSIONS).

(** What one more file in front does to the pictures yielded and to the
    end of the run. *)
Lemma collect_pictures_cons (file : Path) (files : list Path) :
  (breaks file ∧ yielded (collect_pictures (file :: files)) = []
   ∧ ∃ e, outcome (get_snap_date file) = Raise e
          ∧ ended_by (collect_pictures (file :: files)) = Some e)
  ∨ (¬ breaks file
     ∧ yielded (collect_pictures (file :: files))
       = from_option (λ pic, [pic]) [] (picture_of file)
         ++ yielded (collect_pictures files)
     ∧ ended_by (collect_pictures (file :: files))
       = ended_by (collect_pictures files)).
Proof.
  unfold collect_terms.picture_of, collect_terms.breaks, collect_terms.supported.
  cbn [collect.collect_pictures after yielded ended_by].
  case_bool_decide as Hsup; cbn [after yielded ended_by].
  - destruct (outcome (get_snap_date file)) as [d|e] eqn:Hout.
    + right. cbn [after yielded ended_by from_option].
      split; [by intros (_ & e & [=] & _)|done].
    + destruct (is_NoMatchException e) eqn:He; cbn [after yielded ended_by].
      * right. split; [|done]. intros (_ & e' & [= <-] & He'). congruence.
      * left. split; [by eauto|]. split; [done|]. by exists e.
  - right. split; [by intros [? _]|done].
Qed.

(** The pictures yielded, against the files. *)
Lemma collect_pictures_sublist (files : list Path) :
  source_path <$> yielded (collect_pictures files) `sublist_of` files
  ∧ Forall (λ pic, supported (source_path pic)
                   ∧ succeeded (get_snap_date (source_path pic)) (snap_date pic))
           (yielded (collect_pictures files)).
Proof.
  induction files as [|file files [IHs IHf]]; [by split; constructor|].
  destruct (collect_pictures_cons file files)
    as [(_ & -> & _)|(_ & -> & _)]; [split; [apply sublist_nil_l|constructor]|].
  unfold collect_terms.picture_of.
  case_bool_decide as Hsup; cbn [from_option app].
  - destruct (outcome (get_snap_date file)) as [d|e] eqn:Hout;
      cbn [from_option app].
    + split; [by apply sublist_skip|]. by constructor.
    + split; [by apply sublist_cons|done].
  - split; [by apply sublist_cons|done].
Qed.

(** X23. Every picture that [collect_pictures] yields is one of the files,
    has a supported extension, and carries the timestamp [get_snap_date]
    returned for it; the pictures come in the order of the files, each file
    giving at most one. *)
Theorem collect_pictures_yields (files : list Path) :
  source_path <$> yielded (collect_pictures files) `sublist_of` files
  ∧ Forall (λ pic, supported (source_path pic)
                   ∧ succeeded (get_snap_date (source_path pic)) (snap_date pic))
           (yielded (collect_pictures files)).
Proof. apply collect_pictures_sublist. Qed.

(** X24. When no file makes [get_snap_date] raise an exception other than
    [NoMatchException], the run reaches the end of the files, and yields
    exactly the supported files for which [get_snap_date] returned, each
    with its timestamp: a file without evidence is skipped and does not stop
    the run. *)
Theorem collect_pictures_skips (files : list Path) :
  Forall (λ file, ¬ breaks file) files →
  ended_by (collect_pictures files) = None
  ∧ yielded (collect_pictures files) = omap picture_of files.
Proof.
  induction 1 as [|file files Hfile _ [IHe IHy]]; [done|].
  destruct (collect_pictures_cons file files)
    as [(? & _)|(_ & -> & ->)]; [done|].
  rewrite IHe, IHy. split; [done|].
  cbn [omap list_omap]. by destruct (picture_of file).
Qed.

(** X25. The first file that makes [get_snap_date] raise an exception
    other than [NoMatchException] ends the run with that exception: the
    pictures yielded are those of the files before it, and the files after
    it are not looked at. *)
Theorem collect_pictures_breaks (before rest : list Path) (file : Path)
    (e : exn) :
  Forall (λ f, ¬ breaks f) before →
  supported file →
  outcome (get_snap_date file) = Raise e →
  is_NoMatchException e = false →
  ended_by (collect_pictures (before ++ file :: rest)) = Some e
  ∧ yielded (collect_pictures (before ++ file :: rest)) = omap picture_of before.
Proof.
  intros Hbefore Hsup Hout He.
  assert (breaks file) as Hbreaks by (split; eauto).
  induction Hbefore as [|f before Hf _ [IHe IHy]].
  - cbn [app omap list_omap].
    destruct (collect_pictures_cons file rest)
      as [(_ & -> & e' & Hout' & ->)|(? & _)]; [|done].
    split; [congruence|done].
  - change ((f :: before) ++ file :: rest) with (f :: (before ++ file :: rest)).
    destruct (collect_pictures_cons f (before ++ file :: rest))
      as [(? & _)|(_ & -> & ->)]; [done|].
    rewrite IHe, IHy. split; [done|].
    cbn [omap list_omap]. by destruct (picture_of f).
Qed.

(** X26. Fed with the pictures [collect_pictures] yields,
    [get_path_couples] gives one couple for each of them, in their order;
    the source paths of the couples are files of the walk, in the order of
    the walk. *)
Theorem get_path_couples_of_collected (fuel : nat) (files : list Path) :
  ∃ couples st,
    get_path_couples (S fuel) (yielded (collect_pictures files))
    = Some (couples, st)
    ∧ couples.*1 = source_path <$> yielded (collect_pictures files)
    ∧ couples.*1 `sublist_of` files.
Proof.
  eexists _, _. unfold get_path_couples. rewrite for_pictures_empty.
  split; [done|].
  assert (((λ p, (source_path p, get_output_path p 1))
           <$> yielded (collect_pictures files)).*1
          = source_path <$> yielded (collect_pictures files)) as ->.
  { by rewrite <-list_fmap_compose. }
  split; [done|]. apply collect_pictures_sublist.
Qed.

End collect.
End collect_facts.

(** ** Worked examples for the statements above *)

Module worked.
Import pathlib picture date_extract terms picture_manip collect collect_terms.

Ltac by_computation := vm_compute; reflexivity.

Lemma first_pattern_wins_witness :
  first_match (L := example_more.libs)
    [example_more.pattern_vid; example.pattern] "IMG_20240305_143045.jpg"
  = Some (list_to_map [("year", Some "2024"); ("month", Some "03");
                       ("day", Some "05"); ("hour", Some "14");
                       ("minute", Some "30"); ("second", Some "45")]).
Proof.
  apply (filename_facts.first_pattern_wins
           (G := example_more.globals [example_more.pattern_vid; example.pattern])
           (L := example_more.libs)
           [example_more.pattern_vid] [] example.pattern
           "IMG_20240305_143045.jpg").
  - reflexivity.
  - constructor; [by_computation|constructor].
  - by_computation.
Defined.

Lemma get_date_from_filename_fields_witness :
  hour (mk_datetime 2024 3 5 0 0 0 0)
  = default 0 (group_int
                 (list_to_map [("year", Some "2024"); ("month", Some "03");
                               ("day", Some "05"); ("hour", None);
                               ("minute", None); ("second", None)]) "hour").
Proof.
  apply (filename_facts.get_date_from_filename_fields
           (G := example_more.globals [example_more.pattern_time_optional])
           (L := example_more.libs)
           "IMG_20240305.jpg" _ (mk_datetime 2024 3 5 0 0 0 0)).
  - by_computation.
  - by_computation.
Defined.

Lemma get_date_from_filename_valid_witness :
  valid_datetime (mk_datetime 2024 3 5 14 30 45 0).
Proof.
  apply (filename_facts.get_date_from_filename_valid
           (G := example.globals) (L := example.libs)
           "IMG_20240305_143045.png").
  by_computation.
Defined.

Lemma get_date_from_filename_required_witness :
  ∃ e, outcome (get_date_from_filename
                  (G := example_more.globals [example_more.pattern_date_optional])
                  (L := example_more.libs) "clip_101500.mp4") = Raise e
       ∧ is_NoMatchException e = false.
Proof.
  apply (filename_facts.get_date_from_filename_required
           (G := example_more.globals [example_more.pattern_date_optional])
           (L := example_more.libs) "clip_101500.mp4"
           (list_to_map [("year", None); ("month", None); ("day", None);
                         ("hour", Some "10"); ("minute", Some "15");
                         ("second", Some "00")])
           "year").
  - by_computation.
  - apply (bool_decide_eq_true_1 _). by_computation.
  - left. by_computation.
Defined.


Lemma DATETIME_TAGS_entries_witness :
  "DateTimeOriginal" ∈ (DATETIME_TAGS (L := example.libs)).*1.
Proof.
  pose proof (metadata_facts.DATETIME_TAGS_entries (L := example.libs)) as H.
  cbv zeta in H. destruct H as (_ & _ & H).
  apply (H 36867 "DateTimeOriginal").
  - apply (bool_decide_eq_true_1 _). by_computation.
  - apply (bool_decide_eq_true_1 _). by_computation.
Defined.

Lemma get_date_from_exif_first_tag_witness :
  get_date_from_exif (L := example.libs)
    (mk_Image (Some (list_to_map [(36867, "2024:03:05 14:30:00");
                                  (36868, "2023:01:01 00:00:00")])))
  = ([], Return example.snap).
Proof.
  rewrite (metadata_facts.get_date_from_exif_first_tag (L := example.libs)
             _ (list_to_map [(36867, "2024:03:05 14:30:00");
                             (36868, "2023:01:01 00:00:00")])
             [306] [36868] 36867 "2024:03:05 14:30:00").
  - by_computation.
  - reflexivity.
  - by_computation.
  - constructor; [left; by_computation|constructor].
  - by_computation.
  - discriminate.
Defined.

Lemma get_date_from_exif_absent_witness :
  get_date_from_exif (L := example.libs) (mk_Image (Some ∅))
  = ([], Raise (NoMatchException "")).
Proof.
  apply (metadata_facts.get_date_from_exif_absent (L := example.libs)).
  right. exists ∅. split; [reflexivity|].
  vm_compute. repeat constructor.
Defined.

Lemma get_date_from_video_metadata_probe_error_witness :
  get_date_from_video_metadata (L := example.libs) "/photos/clip.mp4"
  = ([mk_LogRecord ERROR "Failed to get video metadata ! for %s. Error: %s"
        [ArgPath "/photos/clip.mp4"; ArgExn FFmpegError]],
     Raise (NoMatchException "")).
Proof.
  rewrite (video_facts.get_date_from_video_metadata_probe_error
             (L := example.libs) "/photos/clip.mp4" FFmpegError).
  - reflexivity.
  - reflexivity.
  - by_computation.
Defined.

Lemma get_date_from_video_metadata_fraction_witness :
  get_date_from_video_metadata (L := example_more.libs) "/videos/clip.mp4"
  = ([], Return example.snap).
Proof.
  rewrite (video_facts.get_date_from_video_metadata_fraction
             (L := example_more.libs) "/videos/clip.mp4"
             "2024-03-05T14:30:00" "000000Z").
  - by_computation.
  - reflexivity.
  - by_computation.
  - reflexivity.
Defined.

Lemma get_date_from_video_metadata_no_stream_witness :
  get_date_from_video_metadata (L := example_more.libs) "/videos/empty.mp4"
  = ([], Raise IndexError).
Proof.
  apply (video_facts.get_date_from_video_metadata_no_stream
           (L := example_more.libs) "/videos/empty.mp4"
           (example_more.probe_output "/videos/empty.mp4")
           (JObject [("streams", JArray [])])).
  - reflexivity.
  - by_computation.
  - by_computation.
  - reflexivity.
Defined.

Lemma get_snap_date_provenance_witness :
  succeeded (metadata_source (G := example.globals) (L := example.libs)
               "/photos/IMG_20240305_101500.jpg") example.snap
  ∨ (failed (metadata_source (G := example.globals) (L := example.libs)
               "/photos/IMG_20240305_101500.jpg")
     ∧ succeeded (filename_source (G := example.globals) (L := example.libs)
                    "/photos/IMG_20240305_101500.jpg") example.snap).
Proof.
  apply (snap_date_facts.get_snap_date_provenance
           (G := example.globals) (L := example.libs)).
  by_computation.
Defined.

Lemma get_snap_date_metadata_error_witness :
  get_snap_date (G := example.globals) (L := example.libs) "/photos/broken.jpg"
  = metadata_source (G := example.globals) (L := example.libs)
      "/photos/broken.jpg".
Proof.
  apply (snap_date_facts.get_snap_date_metadata_error
           (G := example.globals) (L := example.libs)
           "/photos/broken.jpg" (OtherError "UnidentifiedImageError")).
  - by_computation.
  - reflexivity.
Defined.

Lemma metadata_source_case_sensitive_witness :
  metadata_source (G := example.globals) (L := example.libs)
    "/photos/IMG_0001.JPG"
  = raise (NoMatchException "Unsupported extension !").
Proof.
  apply (snap_date_facts.metadata_source_case_sensitive
           (G := example.globals) (L := example.libs)).
  - vm_compute. repeat constructor.
  - by_computation.
Defined.

Lemma get_output_path_counters_witness :
  get_output_path (G := example.globals)
    (mk_Picture "/photos/a/IMG_0001.jpg" example.snap) 1
  ≠ get_output_path (G := example.globals)
      (mk_Picture "/photos/a/IMG_0001.jpg" example.snap) 2.
Proof.
  apply (picture_more_facts.get_output_path_counters (G := example.globals)).
  discriminate.
Defined.

Lemma get_output_path_extensions_witness :
  get_output_path (G := example.globals)
    (mk_Picture "/photos/a/IMG_0001.jpg" example.snap) 1
  ≠ get_output_path (G := example.globals)
      (mk_Picture "/photos/a/IMG_0001.png" example.snap) 1.
Proof.
  apply (picture_more_facts.get_output_path_extensions (G := example.globals)).
  vm_compute. discriminate.
Defined.


Lemma collect_pictures_skips_witness :
  yielded (collect_pictures (G := example.globals) (L := example.libs)
             example_more.SUPPORTED_EXTENSIONS
             ["/photos/holiday.jpg"; "/photos/scan.png";
              "/photos/notes_20240305_143000.txt"])
  = omap (picture_of (G := example.globals) (L := example.libs)
            example_more.SUPPORTED_EXTENSIONS)
         ["/photos/holiday.jpg"; "/photos/scan.png";
          "/photos/notes_20240305_143000.txt"].
Proof.
  apply (collect_facts.collect_pictures_skips
           (G := example.globals) (L := example.libs)).
  repeat constructor; intros (Hsup & e & Hout & He).
  - vm_compute in Hout. discriminate.
  - vm_compute in Hout. injection Hout as <-. discriminate.
  - unfold supported in Hsup. apply (bool_decide_eq_true_2 _) in Hsup.
    vm_compute in Hsup. discriminate.
Defined.

Lemma collect_pictures_breaks_witness :
  ended_by (collect_pictures (G := example.globals) (L := example.libs)
              example_more.SUPPORTED_EXTENSIONS
              (["/photos/holiday.jpg"; "/photos/scan.png"]
               ++ "/photos/broken.jpg" :: ["/photos/IMG_20240305_143000.jpg"]))
  = Some (OtherError "UnidentifiedImageError").
Proof.
  apply (collect_facts.collect_pictures_breaks
           (G := example.globals) (L := example.libs)).
  - repeat constructor; intros (Hsup & e & Hout & He).
    + vm_compute in Hout. discriminate.
    + vm_compute in Hout. injection Hout as <-. discriminate.
  - unfold supported. apply (bool_decide_eq_true_1 _). by_computation.
  - by_computation.
  - reflexivity.
Defined.

End worked.

(** ** date_extract.py: a source that ends with another exception *)

Module escape_facts.
Import pathlib date_extract.

(** C4. Both sources end without a timestamp, and [get_snap_date] does not
    raise [NoMatchException]: for an image without the date tags whose name
    reads month 13, the metadata source reports "no evidence", the filename
    source raises [ValueError], and [get_snap_date] raises that
    [ValueError]: neither the terminal failure nor a timestamp. *)
Theorem get_snap_date_both_fail_escapes :
  failed (metadata_source (G := example.globals) (L := example.libs)
            "/photos/IMG_20241305_101500.png")
  ∧ outcome (filename_source (G := example.globals) (L := example.libs)
               "/photos/IMG_20241305_101500.png") = Raise ValueError
  ∧ outcome (get_snap_date (G := example.globals) (L := example.libs)
               "/photos/IMG_20241305_101500.png") = Raise ValueError
  ∧ ¬ failed (get_snap_date (G := example.globals) (L := example.libs)
                "/photos/IMG_20241305_101500.png")
  ∧ ¬ (∃ d, succeeded (get_snap_date (G := example.globals) (L := example.libs)
                         "/photos/IMG_20241305_101500.png") d).
Proof.
  split; [exists ""; vm_compute; reflexivity|].
  split; [vm_compute; reflexivity|].
  split; [vm_compute; reflexivity|].
  split.
  - intros [msg Hmsg]. vm_compute in Hmsg. discriminate.
  - intros [d Hd]. vm_compute in Hd. discriminate.
Qed.

(** C5. Exactly one source returns a timestamp, and [get_snap_date] does
    not return it. For an image that cannot be decoded, under a name that
    holds a date, the filename source returns the timestamp of the name and
    [get_snap_date] raises the error of the decoder. For a good image under
    a name whose month reads 13, the metadata source returns its timestamp
    and [get_snap_date] raises the [ValueError] of the filename source. *)
Theorem get_snap_date_one_source_escapes :
  (succeeded (filename_source (G := example.globals) (L := example_more.libs)
                "/photos/damaged/IMG_20240305_143000.jpg") example.snap
   ∧ outcome (metadata_source (G := example.globals) (L := example_more.libs)
                "/photos/damaged/IMG_20240305_143000.jpg")
     = Raise (OtherError "UnidentifiedImageError")
   ∧ outcome (get_snap_date (G := example.globals) (L := example_more.libs)
                "/photos/damaged/IMG_20240305_143000.jpg")
     = Raise (OtherError "UnidentifiedImageError"))
  ∧ (succeeded (metadata_source (G := example.globals) (L := example_more.libs)
                  "/photos/IMG_20241305_101500.jpg") example.snap
     ∧ outcome (filename_source (G := example.globals) (L := example_more.libs)
                  "/photos/IMG_20241305_101500.jpg") = Raise ValueError
     ∧ outcome (get_snap_date (G := example.globals) (L := example_more.libs)
                  "/photos/IMG_20241305_101500.jpg") = Raise ValueError).
Proof. repeat split; vm_compute; reflexivity. Qed.

End escape_facts.
